(** * Solarman-to-MQTT bridge: a shallow embedding of [solarman.py]

    The development follows the source file top to bottom.

    - [Py] holds the fragment of Python's object model the program relies
      on: JSON values as produced by [json.loads], insertion-ordered
      dictionaries, truthiness, subscripting, [in], [==] and the
      exceptions these raise.
    - [Eff] is the small state-and-exception monad in which mutating and
      raising code is written.
    - The remaining definitions carry the names of the functions of
      [solarman.py] that they embed; [main] is the block run as a script,
      its [while True] loop observed for a number of iterations.  The
      signal handler and the clock are outside the model.

    Console output ([print]) is not part of the model: the functions
    below keep the arguments that only feed it ([device], [debug]) so that
    call sites read like the source.  The MQTT client library is modelled
    by the sequence of calls made on it, [publish] raising what the
    client raises on a topic or payload it refuses; [time.sleep] is
    modelled by the exception it raises on its argument, if any. *)

From Stdlib Require Import ZArith List String Ascii Bool Lia.
From Stdlib Require Import Floats.SpecFloat.
Import ListNotations.

Set Warnings "-register-all".

#[local] Open Scope list_scope.
#[local] Open Scope string_scope.

(* ------------------------------------------------------------------ *)
(** ** Python values                                                   *)
(* ------------------------------------------------------------------ *)

Module Py.

(** What [json.loads] can return; [VNone] is also the value the fetch
    functions return from their [except] branch. *)
Inductive value : Type :=
| VNone
| VBool (b : bool)
| VInt (z : Z)
| VFloat (f : spec_float)
| VStr (s : string)
| VList (l : list value)
| VDict (d : list (string * value)).

(** A [dict] with string keys, in insertion order. *)
Definition dict : Type := list (string * value).

Inductive exn : Type :=
| KeyError (k : string)
| TypeError
| AttributeError
| ValueError
| OverflowError.

Inductive res (A : Type) : Type :=
| Ok (a : A)
| Raise (e : exn).
Arguments Ok {A} a.
Arguments Raise {A} e.

(** *** Dictionaries *)

Fixpoint dict_get (k : string) (d : dict) : option value :=
  match d with
  | [] => None
  | (k', v) :: d' => if String.eqb k k' then Some v else dict_get k d'
  end.

Definition dict_has (k : string) (d : dict) : bool :=
  match dict_get k d with Some _ => true | None => false end.

(** [del d[k]] once [k] is known to be present. *)
Definition dict_del (k : string) (d : dict) : dict :=
  filter (fun kv => negb (String.eqb k (fst kv))) d.

(** [d[k] = v]: an existing key keeps its position, a new one goes last. *)
Fixpoint dict_set (k : string) (v : value) (d : dict) : dict :=
  match d with
  | [] => [(k, v)]
  | (k', v') :: d' =>
      if String.eqb k k' then (k, v) :: d' else (k', v') :: dict_set k v d'
  end.

Definition dict_keys (d : dict) : list string := map fst d.

(** *** Truthiness, as tested by [if x:] *)
Definition truthy (v : value) : bool :=
  match v with
  | VNone => false
  | VBool b => b
  | VInt z => negb (Z.eqb z 0)
  | VFloat (S754_zero _) => false
  | VFloat _ => true
  | VStr s => negb (String.eqb s "")
  | VList l => match l with [] => false | _ => true end
  | VDict d => match d with [] => false | _ => true end
  end.

Definition is_none (v : value) : bool :=
  match v with VNone => true | _ => false end.

(** *** [x == n] for an integer literal [n]: [bool] is a subclass of
    [int], and a float compares by its numeric value. *)
Definition float_eq_Z (f : spec_float) (n : Z) : bool :=
  match f with
  | S754_zero _ => Z.eqb n 0
  | S754_finite s m e =>
      let mag := if s then Z.opp (Z.pos m) else Z.pos m in
      match e with
      | Z0 => Z.eqb mag n
      | Zpos p => Z.eqb (mag * 2 ^ Zpos p) n
      | Zneg p => Z.eqb mag (n * 2 ^ Zpos p)
      end
  | _ => false
  end.

Definition eq_int (v : value) (n : Z) : bool :=
  match v with
  | VInt z => Z.eqb z n
  | VBool b => Z.eqb (if b then 1 else 0) n
  | VFloat f => float_eq_Z f n
  | _ => false
  end.

(** *** Subscripting with a string key: [x[k]] and [del x[k]] *)
Definition getitem (x : value) (k : string) : res value :=
  match x with
  | VDict d => match dict_get k d with
               | Some v => Ok v
               | None => Raise (KeyError k)
               end
  | _ => Raise TypeError
  end.

Definition delitem (x : value) (k : string) : res value :=
  match x with
  | VDict d => if dict_has k d then Ok (VDict (dict_del k d))
               else Raise (KeyError k)
  | _ => Raise TypeError
  end.

(** *** [k in x] for a string [k] *)
Fixpoint has_substring (k s : string) : bool :=
  String.prefix k s
  || match s with
     | EmptyString => false
     | String _ s' => has_substring k s'
     end.

Definition is_str (k : string) (v : value) : bool :=
  match v with VStr s => String.eqb s k | _ => false end.

Definition contains (k : string) (x : value) : res bool :=
  match x with
  | VDict d => Ok (dict_has k d)
  | VList l => Ok (existsb (is_str k) l)
  | VStr s => Ok (has_substring k s)
  | _ => Raise TypeError
  end.

(** *** [for i in x]: the elements visited *)
Fixpoint chars (s : string) : list value :=
  match s with
  | EmptyString => []
  | String c s' => VStr (String c EmptyString) :: chars s'
  end.

Definition iter (x : value) : res (list value) :=
  match x with
  | VList l => Ok l
  | VDict d => Ok (map VStr (dict_keys d))
  | VStr s => Ok (chars s)
  | _ => Raise TypeError
  end.

(** *** [x.items()] *)
Definition items (x : value) : res dict :=
  match x with
  | VDict d => Ok d
  | _ => Raise AttributeError
  end.

(** *** [x.replace(old, new)] for one-character [old] and [new] *)
Fixpoint replace_char (old new : ascii) (s : string) : string :=
  match s with
  | EmptyString => EmptyString
  | String c s' =>
      String (if Ascii.eqb c old then new else c) (replace_char old new s')
  end.

Definition replace (x : value) (old new : ascii) : res string :=
  match x with
  | VStr s => Ok (replace_char old new s)
  | _ => Raise AttributeError
  end.

End Py.
Import Py.

(* ------------------------------------------------------------------ *)
(** ** State and exceptions                                            *)
(* ------------------------------------------------------------------ *)

Module Eff.

(** A computation over a mutable [S] that returns or raises.  The state
    is returned in both cases: what was mutated before an exception stays
    mutated. *)
Definition ST (S A : Type) : Type := S -> S * res A.

Definition ret {S A} (a : A) : ST S A := fun s => (s, Ok a).

Definition bind {S A B} (c : ST S A) (k : A -> ST S B) : ST S B :=
  fun s =>
    match c s with
    | (s', Ok a) => k a s'
    | (s', Raise e) => (s', Raise e)
    end.

(** A pure step that may raise. *)
Definition lift {S A} (r : res A) : ST S A := fun s => (s, r).

(** A step that replaces the state, or raises and leaves it as it is. *)
Definition update {S} (f : S -> res S) : ST S unit :=
  fun s =>
    match f s with
    | Ok s' => (s', Ok tt)
    | Raise e => (s, Raise e)
    end.

(** A step that reads the state. *)
Definition inspect {S A} (f : S -> res A) : ST S A := fun s => (s, f s).

End Eff.
Import Eff.

Declare Scope eff_scope.
Delimit Scope eff_scope with eff.
Notation "x <- c ;; k" := (bind c (fun x => k))
  (at level 61, c at next level, right associativity) : eff_scope.
Notation "c ;; k" := (bind c (fun _ => k))
  (at level 61, right associativity) : eff_scope.
#[local] Open Scope eff_scope.

(* ------------------------------------------------------------------ *)
(** ** [restruct_and_separate_current_data]                            *)
(* ------------------------------------------------------------------ *)

(** The body of [for i in data_list], on the record [i] as state. *)
Definition record_body (new_data_list : dict) : ST value dict :=
  update (fun i => delitem i "key") ;;
  name <- inspect (fun i => getitem i "name") ;;
  name <- lift (replace name " " "_") ;;
  update (fun i => delitem i "name") ;;
  v <- inspect (fun i => getitem i "value") ;;
  ret (dict_set name v new_data_list).

(** The loop: the records are mutated where they are; an exception
    leaves the current record as far as it got and the later ones
    untouched. *)
Fixpoint for_records (new_data_list : dict) : ST (list value) dict :=
  fun data_list =>
    match data_list with
    | [] => ([], Ok new_data_list)
    | i :: rest =>
        match record_body new_data_list i with
        | (i', Raise e) => (i' :: rest, Raise e)
        | (i', Ok new_data_list') =>
            let (rest', r) := for_records new_data_list' rest in
            (i' :: rest', r)
        end
    end.

(** Only the elements of a list are objects held by [data]; iterating a
    [dict] or a [str] visits keys or characters. *)
Definition write_back (data_list : value) (elems : list value) : value :=
  match data_list with
  | VList _ => VList elems
  | _ => data_list
  end.

Definition store (data : value) (k : string) (v : value) : value :=
  match data with
  | VDict d => VDict (dict_set k v d)
  | _ => data
  end.

(** The [try] block, on [data] as state. *)
Definition restruct_try : ST value dict :=
  data_list <- inspect (fun data => getitem data "dataList") ;;
  if truthy data_list then
    elems <- lift (iter data_list) ;;
    new_data_list <-
      (fun data =>
         let (elems', r) := for_records [] elems in
         (store data "dataList" (write_back data_list elems'), r)) ;;
    update (fun data => delitem data "dataList") ;;
    ret new_data_list
  else
    ret [].

(** Returns the function's result and [data] as the call leaves it. *)
Definition restruct_and_separate_current_data (data : value) (device : string)
  : value * value :=
  match restruct_try data with
  | (data', Ok new_data_list) => (VDict new_data_list, data')
  | (data', Raise _) => (VNone, data')
  end.

(* ------------------------------------------------------------------ *)
(** ** The outside world                                               *)
(* ------------------------------------------------------------------ *)

(** The configuration object read from [config.json], with every key
    that [run] subscripts. *)
Record mqtt_config : Type := {
  broker : string;
  port : Z;
  mqtt_username : string;
  mqtt_password : string;
  topic : string
}.

Record config : Type := {
  url : string;
  appid : string;
  secret : string;
  username : string;
  password : string;
  orgId : value;
  stationId : value;
  inverterId : value;
  loggerId : value;
  debug : bool;
  mqtt : mqtt_config
}.

(** The upstream API and the hash function.  [https_post host path body
    headers] stands for [conn.request], [conn.getresponse] and
    [json.loads(res.read())] together: [None] when one of them raises,
    the decoded body otherwise. *)
Record upstream : Type := {
  sha256_hexdigest : string -> string;
  https_post : string -> string -> value -> list (string * string)
               -> option value
}.

(** What is handed to [client.publish]: a field's value as it is, or the
    text [json.dumps] makes of a mapping. *)
Inductive payload : Type :=
| PValue (v : value)
| PJson (v : value).

(** Calls on the MQTT client, in program order. *)
Inductive event : Type :=
| NewClient (client_id : string)
| UsernamePwSet (user pw : string)
| Connect (host : string) (p : Z)
| LoopStart
| Publish (tp : string) (pl : payload)
| LoopStop.

Definition trace : Type := list event.

(** A computation that calls the bus and returns or raises: the calls it
    made, then how it ended. *)
Module Bus.

Definition IO (A : Type) : Type := trace * res A.

Definition ret {A} (a : A) : IO A := ([], Ok a).

Definition bind {A B} (c : IO A) (k : A -> IO B) : IO B :=
  match c with
  | (t, Ok a) => let (t', r) := k a in ((t ++ t')%list, r)
  | (t, Raise e) => (t, Raise e)
  end.

Definition lift {A} (r : res A) : IO A := ([], r).

Definition emit (e : event) : IO unit := ([e], Ok tt).

End Bus.

Declare Scope io_scope.
Delimit Scope io_scope with io.
Notation "x <- c ;; k" := (Bus.bind c (fun x => k))
  (at level 61, c at next level, right associativity) : io_scope.
Notation "c ;; k" := (Bus.bind c (fun _ => k))
  (at level 61, right associativity) : io_scope.


(* ------------------------------------------------------------------ *)
(** ** The fetch functions                                             *)
(* ------------------------------------------------------------------ *)

Definition json_headers : list (string * string) :=
  [("Content-Type", "application/json")].

Definition get_token (up : upstream)
    (url appid secret username password : string) (orgId : value) : value :=
  let passhash := sha256_hexdigest up password in
  let payload :=
    if truthy orgId then
      VDict [("appSecret", VStr secret); ("email", VStr username);
             ("password", VStr passhash); ("orgId", orgId)]
    else
      VDict [("appSecret", VStr secret); ("email", VStr username);
             ("password", VStr passhash)] in
  let path := "//account/v1.0/token?appId=" ++ appid ++ "&language=en" in
  match https_post up url path payload json_headers with
  | None => VNone
  | Some data =>
      match getitem data "access_token" with
      | Ok tok => tok
      | Raise _ => VNone
      end
  end.

(** ["bearer " + token] raises unless [token] is a [str]; the [except]
    branch then returns [None] before any request is sent. *)
Definition bearer_headers (token : value) : res (list (string * string)) :=
  match token with
  | VStr t => Ok (List.app json_headers [("Authorization", "bearer " ++ t)])
  | _ => Raise TypeError
  end.

Definition get_station_realtime (up : upstream)
    (url : string) (stationid token : value) : value :=
  match bearer_headers token with
  | Raise _ => VNone
  | Ok headers =>
      match https_post up url "//station/v1.0/realTime?language=en"
                       (VDict [("stationId", stationid)]) headers with
      | None => VNone
      | Some data => data
      end
  end.

Definition get_device_current_data (up : upstream)
    (url : string) (device_sn token : value) : value :=
  match bearer_headers token with
  | Raise _ => VNone
  | Ok headers =>
      match https_post up url "//device/v1.0/currentData?language=en"
                       (VDict [("deviceSn", device_sn)]) headers with
      | None => VNone
      | Some data => data
      end
  end.

(* ------------------------------------------------------------------ *)
(** ** The bus                                                         *)
(* ------------------------------------------------------------------ *)

Definition connect_mqtt (broker : string) (port : Z)
    (client_id username password : string) : Bus.IO unit :=
  (Bus.emit (NewClient client_id) ;;
   Bus.emit (UsernamePwSet username password) ;;
   Bus.emit (Connect broker port))%io.

(** [client.publish(topic, payload)] checks its arguments before it
    sends anything: a topic that contains a wildcard ([+] or [#]) or is
    longer than 65535 bytes raises [ValueError], and a payload that is
    neither text, a number, a boolean nor [None] raises [TypeError].
    The limit on the size of a payload (256 MiB) is not modelled. *)
Definition has_wildcard (tp : string) : bool :=
  existsb (fun c => Ascii.eqb c "+" || Ascii.eqb c "#")
          (list_ascii_of_string tp).

Definition refusal (tp : string) (pl : payload) : option exn :=
  if has_wildcard tp || (65535 <? N.of_nat (String.length tp))%N
  then Some ValueError
  else match pl with
       | PValue (VList _) | PValue (VDict _) => Some TypeError
       | _ => None
       end.

(** The call is made in any case; it raises when the client refuses its
    arguments.  [result[0]] only selects the line that is printed. *)
Definition publish (tp : string) (pl : payload) (debug : bool) : Bus.IO unit :=
  ([Publish tp pl],
   match refusal tp pl with None => Ok tt | Some e => Raise e end).

Definition ascii_letters : string :=
  "abcdefghijklmnopqrstuvwxyzABCDEFGHIJKLMNOPQRSTUVWXYZ".
Definition digits : string := "0123456789".

(** [random.choices(population, k)]: draw [j] picks the character at
    index [rand j], reduced into range. *)
Definition random_choices (rand : nat -> nat) (population : string)
    (k : nat) : list ascii :=
  let pop := list_ascii_of_string population in
  map (fun j => nth (rand j mod List.length pop) pop " "%char) (seq 0 k).

Definition generate_client_id (rand : nat -> nat) (length : nat) : string :=
  string_of_list_ascii (random_choices rand (ascii_letters ++ digits) length).

(* ------------------------------------------------------------------ *)
(** ** [run]                                                           *)
(* ------------------------------------------------------------------ *)

Definition discard : list string := ["code"; "msg"; "requestId"; "success"].

Definition in_discard (i : string) : bool :=
  existsb (String.eqb i) discard.

(** [for i, value in data.items(): if value and i not in discard:
    publish(client, f"{topic}/<section>/{i}", value, debug)] *)
Fixpoint publish_items (prefix : string) (debug : bool) (its : dict)
  : Bus.IO unit :=
  match its with
  | [] => Bus.ret tt
  | (i, value) :: rest =>
      ((if truthy value && negb (in_discard i)
        then publish (prefix ++ i) (PValue value) debug
        else Bus.ret tt) ;;
       publish_items prefix debug rest)%io
  end.

Definition publish_fields (prefix : string) (debug : bool) (data : value)
  : Bus.IO unit :=
  (its <- Bus.lift (items data) ;;
   publish_items prefix debug its)%io.

(** [x["deviceState"] if x is not None and "deviceState" in x else None] *)
Definition device_state_of (inverter_data : value) : res value :=
  if negb (is_none inverter_data) then
    match contains "deviceState" inverter_data with
    | Raise e => Raise e
    | Ok true => getitem inverter_data "deviceState"
    | Ok false => Ok VNone
    end
  else Ok VNone.

(** [run] from the line [discard = ...] on, with the values the first
    half of [run] has bound. *)
Definition run_publish (cfg : config) (rand : nat -> nat)
    (station_data inverter_data inverter_data_list
     logger_data logger_data_list : value) : Bus.IO unit :=
  let topic := topic (mqtt cfg) in
  let client_id := generate_client_id rand 10 in
  (connect_mqtt (broker (mqtt cfg)) (port (mqtt cfg)) client_id
                (mqtt_username (mqtt cfg)) (mqtt_password (mqtt cfg)) ;;
   Bus.emit LoopStart ;;
   inverter_device_state <- Bus.lift (device_state_of inverter_data) ;;
   if is_none inverter_device_state || is_none station_data
      || is_none logger_data || is_none station_data
   then Bus.ret tt
   else
     (if eq_int inverter_device_state 1 then
        publish_fields (topic ++ "/station/") (debug cfg) station_data ;;
        publish_fields (topic ++ "/inverter/") (debug cfg) inverter_data ;;
        (if truthy inverter_data_list
         then publish (topic ++ "/inverter/attributes")
                      (PJson inverter_data_list) (debug cfg)
         else Bus.ret tt) ;;
        publish_fields (topic ++ "/logger/") (debug cfg) logger_data ;;
        (if truthy logger_data_list
         then publish (topic ++ "/logger/attributes")
                      (PJson logger_data_list) (debug cfg)
         else Bus.ret tt)
      else
        st <- Bus.lift (getitem inverter_data "deviceState") ;;
        publish (topic ++ "/inverter/deviceState") (PValue st) (debug cfg) ;;
        st <- Bus.lift (getitem logger_data "deviceState") ;;
        publish (topic ++ "/logger/deviceState") (PValue st) (debug cfg)) ;;
     Bus.emit LoopStop)%io.

(** The values a cycle obtains from upstream, named as in [run]. *)
Definition token_of (cfg : config) (up : upstream) : value :=
  get_token up (url cfg) (appid cfg) (secret cfg)
            (username cfg) (password cfg) (orgId cfg).
Definition station_of (cfg : config) (up : upstream) : value :=
  get_station_realtime up (url cfg) (stationId cfg) (token_of cfg up).
Definition inverter_of (cfg : config) (up : upstream) : value :=
  get_device_current_data up (url cfg) (inverterId cfg) (token_of cfg up).
Definition logger_of (cfg : config) (up : upstream) : value :=
  get_device_current_data up (url cfg) (loggerId cfg) (token_of cfg up).

(** One call of [run(config)]: the calls made on the bus and how the call
    ended. *)
Definition run (cfg : config) (up : upstream) (rand : nat -> nat)
  : Bus.IO unit :=
  let token := token_of cfg up in
  if is_none token then Bus.ret tt
  else
    let station_data := station_of cfg up in
    let inverter_data := inverter_of cfg up in
    let logger_data := logger_of cfg up in
    let (inverter_data_list, inverter_data) :=
      restruct_and_separate_current_data inverter_data "Inverter" in
    let (logger_data_list, logger_data) :=
      restruct_and_separate_current_data logger_data "Logger" in
    run_publish cfg rand station_data inverter_data inverter_data_list
                logger_data logger_data_list.

(** *** Observations on a cycle *)

Fixpoint published (t : trace) : list (string * payload) :=
  match t with
  | [] => []
  | Publish tp pl :: t' => (tp, pl) :: published t'
  | _ :: t' => published t'
  end.

Definition count_event (p : event -> bool) (t : trace) : nat :=
  List.length (filter p t).

Definition is_connect (e : event) : bool :=
  match e with Connect _ _ => true | _ => false end.
Definition is_loop_start (e : event) : bool :=
  match e with LoopStart => true | _ => false end.
Definition is_loop_stop (e : event) : bool :=
  match e with LoopStop => true | _ => false end.

(* ------------------------------------------------------------------ *)
(** ** The vocabulary of the specification                            *)
(* ------------------------------------------------------------------ *)

(** A record of the shape [{key, name, value}] with a textual name. *)
Definition well_formed_record (i : value) : bool :=
  match i with
  | VDict d =>
      dict_has "key" d
      && match dict_get "name" d with Some (VStr _) => true | _ => false end
      && dict_has "value" d
  | _ => false
  end.

(** The output entry of one record: its name with spaces turned into
    underscores, and its value. *)
Definition attribute_of (i : value) : string * value :=
  match i with
  | VDict d =>
      (match dict_get "name" d with
       | Some (VStr name) => replace_char " " "_" name
       | _ => ""
       end,
       match dict_get "value" d with Some v => v | None => VNone end)
  | _ => ("", VNone)
  end.

(** A field is published on its own when it is non-empty and is not
    metadata. *)
Definition publishable (kv : string * value) : bool :=
  truthy (snd kv) && negb (in_discard (fst kv)).

Definition field_messages (prefix : string) (data : dict)
  : list (string * payload) :=
  map (fun kv => (prefix ++ fst kv, PValue (snd kv))) (filter publishable data).

Definition snapshot_messages (prefix : string) (data : value)
  : list (string * payload) :=
  match data with
  | VDict d => field_messages prefix d
  | _ => []
  end.

(** Handing messages to the client one after the other: the calls made,
    the last of which may be one the client refused, and the exception
    of that refusal. *)
Fixpoint handed_over (ms : list (string * payload)) : list (string * payload) :=
  match ms with
  | [] => []
  | m :: ms' =>
      match refusal (fst m) (snd m) with
      | None => m :: handed_over ms'
      | Some _ => [m]
      end
  end.

Fixpoint first_refusal (ms : list (string * payload)) : option exn :=
  match ms with
  | [] => None
  | m :: ms' =>
      match refusal (fst m) (snd m) with
      | None => first_refusal ms'
      | Some e => Some e
      end
  end.

(** The attributes blob of a device, when there is one. *)
Definition blob_messages (tp : string) (attrs : value)
  : list (string * payload) :=
  if truthy attrs then [(tp, PJson attrs)] else [].

(** A fetch result that is absent or a mapping. *)
Definition absent_or_mapping (v : value) : bool :=
  match v with VNone | VDict _ => true | _ => false end.

(** One turn of the loop, seen from outside. *)
Definition add_attribute (m : dict) (i : value) : dict :=
  dict_set (fst (attribute_of i)) (snd (attribute_of i)) m.

Definition message_event (m : string * payload) : event :=
  Publish (fst m) (snd m).

Definition outcome_of (ms : list (string * payload)) : res unit :=
  match first_refusal ms with None => Ok tt | Some e => Raise e end.

Definition hand_over (ms : list (string * payload)) : Bus.IO unit :=
  (map message_event (handed_over ms), outcome_of ms).

(** [client.loop_stop()] is reached when nothing was refused. *)
Definition closing_after (ms : list (string * payload)) : trace :=
  match first_refusal ms with None => [LoopStop] | Some _ => [] end.

(** What a cycle with the inverter not online hands to the client. *)
Definition status_messages (cfg : config) (st lst : value)
  : list (string * payload) :=
  [(topic (mqtt cfg) ++ "/inverter/deviceState", PValue st);
   (topic (mqtt cfg) ++ "/logger/deviceState", PValue lst)].

(** The calls up to and including [client.loop_start()]. *)
Definition opening (cfg : config) (rand : nat -> nat) : trace :=
  [NewClient (generate_client_id rand 10);
   UsernamePwSet (mqtt_username (mqtt cfg)) (mqtt_password (mqtt cfg));
   Connect (broker (mqtt cfg)) (port (mqtt cfg));
   LoopStart].

(** Everything an online cycle publishes, in order. *)
Definition full_publication (cfg : config)
    (station_data inverter_data inverter_data_list
     logger_data logger_data_list : value) : list (string * payload) :=
  let topic := topic (mqtt cfg) in
  (snapshot_messages (topic ++ "/station/") station_data
   ++ snapshot_messages (topic ++ "/inverter/") inverter_data
   ++ blob_messages (topic ++ "/inverter/attributes") inverter_data_list
   ++ snapshot_messages (topic ++ "/logger/") logger_data
   ++ blob_messages (topic ++ "/logger/attributes") logger_data_list)%list.

(** The full set for a cycle whose replies are the mappings [sd], [ind]
    and [ld]: the device snapshots are taken as the transformer leaves
    them. *)
Definition cycle_publication (cfg : config) (sd ind ld : dict)
  : list (string * payload) :=
  full_publication cfg (VDict sd)
    (snd (restruct_and_separate_current_data (VDict ind) "Inverter"))
    (fst (restruct_and_separate_current_data (VDict ind) "Inverter"))
    (snd (restruct_and_separate_current_data (VDict ld) "Logger"))
    (fst (restruct_and_separate_current_data (VDict ld) "Logger")).

(** The three prefixes under which fields are published one by one. *)
Definition field_prefixes (cfg : config) : list string :=
  [topic (mqtt cfg) ++ "/station/"; topic (mqtt cfg) ++ "/inverter/";
   topic (mqtt cfg) ++ "/logger/"].

(** A snapshot without attributes: [dataList] is missing or empty. *)
Definition no_attributes (d : dict) : bool :=
  match dict_get "dataList" d with
  | None => true
  | Some data_list => negb (truthy data_list)
  end.

(* ------------------------------------------------------------------ *)
(** ** A concrete installation                                         *)
(* ------------------------------------------------------------------ *)

Definition sample_mqtt : mqtt_config :=
  {| broker := "localhost"; port := 1883;
     mqtt_username := "mqtt"; mqtt_password := "secret"; topic := "solarman" |}.

Definition sample_config : config :=
  {| url := "globalapi.solarmanpv.com"; appid := "1234"; secret := "s3";
     username := "me@example.org"; password := "pw"; orgId := VNone;
     stationId := VInt 77; inverterId := VStr "INV1"; loggerId := VStr "LOG1";
     debug := false; mqtt := sample_mqtt |}.

(** An upstream that answers the token request with [token], the station
    request with [station] and the device requests for [INV1] and [LOG1]
    with [inverter] and [logger]; [None] is a request that fails. *)
Definition sample_upstream (token station inverter logger : option value)
  : upstream :=
  {| sha256_hexdigest := fun s => s;
     https_post := fun host path body headers =>
       if String.eqb path "//station/v1.0/realTime?language=en" then station
       else if String.eqb path "//device/v1.0/currentData?language=en" then
         match getitem body "deviceSn" with
         | Ok (VStr sn) =>
             if String.eqb sn "INV1" then inverter
             else if String.eqb sn "LOG1" then logger else None
         | _ => None
         end
       else token |}.

Definition token_reply : option value :=
  Some (VDict [("access_token", VStr "abc"); ("success", VBool true)]).

Definition output_power_record : value :=
  VDict [("key", VStr "k1"); ("name", VStr "Output Power"); ("value", VInt 500)].

Definition daily_yield_record : value :=
  VDict [("key", VStr "k2"); ("name", VStr "Daily Production Active");
         ("value", VStr "3.20"); ("unit", VStr "kWh")].

(** 12.5 in binary floating point. *)
Definition f12_5 : spec_float := S754_finite false 25 (-1).

Definition sample_station : dict :=
  [("code", VInt 1); ("power", VInt 0); ("energy", VFloat f12_5)].

Definition sample_inverter (state : Z) : dict :=
  [("deviceSn", VStr "INV1"); ("deviceState", VInt state); ("success", VBool true);
   ("dataList", VList [output_power_record; daily_yield_record])].

Definition sample_logger (state : Z) : dict :=
  [("deviceSn", VStr "LOG1"); ("deviceState", VInt state)].

(** The draws of the random generator, here fixed. *)
Definition sample_rand (j : nat) : nat := 7 * j + 3.

(** All requests succeed; the inverter and the logger report [state]. *)
Definition reachable_upstream (state : Z) : upstream :=
  sample_upstream token_reply (Some (VDict sample_station))
    (Some (VDict (sample_inverter state))) (Some (VDict (sample_logger state))).

(** The station request fails; everything else succeeds. *)
Definition station_down_upstream : upstream :=
  sample_upstream token_reply None
    (Some (VDict (sample_inverter 1))) (Some (VDict (sample_logger 1))).

(** The token request is answered without [access_token]. *)
Definition auth_failed_upstream : upstream :=
  sample_upstream (Some (VDict [("success", VBool false); ("msg", VStr "auth failed")]))
    (Some (VDict sample_station))
    (Some (VDict (sample_inverter 1))) (Some (VDict (sample_logger 1))).

(** The inverter is up with an empty [dataList]; the logger has none. *)
Definition bare_inverter : dict :=
  [("deviceSn", VStr "INV1"); ("deviceState", VInt 1); ("dataList", VList [])].

Definition bare_upstream : upstream :=
  sample_upstream token_reply (Some (VDict sample_station))
    (Some (VDict bare_inverter)) (Some (VDict (sample_logger 1))).

(** The logger request is answered with an error body, which has no
    [deviceState]; the inverter is offline. *)
Definition logger_error_upstream : upstream :=
  sample_upstream token_reply (Some (VDict sample_station))
    (Some (VDict (sample_inverter 3)))
    (Some (VDict [("code", VStr "2101019"); ("msg", VStr "device not found");
                  ("success", VBool false)])).

(** The inverter reply carries [null] where its state should be. *)
Definition null_state_upstream : upstream :=
  sample_upstream token_reply (Some (VDict sample_station))
    (Some (VDict [("deviceSn", VStr "INV1"); ("deviceState", VNone)]))
    (Some (VDict (sample_logger 3))).

(* ------------------------------------------------------------------ *)
(** ** The entry point                                                 *)
(* ------------------------------------------------------------------ *)

(** What the process does besides calling the bus, and how it ends.
    [Running] is a [while True] loop that has not ended after the number
    of iterations observed. *)
Inductive proc_event : Type :=
| PBus (e : event)
| PSleep (seconds : value).

Inductive outcome : Type :=
| Exit (code : Z)
| Uncaught (e : exn)
| LoadFailed
| Running.

(** [config.json] as the process finds it: not there, there but
    [load_config] raises, or loaded, with the result of looking up
    ["interval"]. *)
Inductive config_file : Type :=
| Missing
| Unreadable
| Loaded (cfg : config) (interval : option value).

(** [time.sleep(secs)].  The argument is converted to a whole number of
    nanoseconds in a signed 64-bit integer: something that is not a
    number raises [TypeError], a NaN raises [ValueError], a number whose
    nanoseconds do not fit raises [OverflowError], and a negative one
    that fits raises [ValueError].  A float is multiplied by 10^9 and
    rounded to the nearest float first, which moves the upper bound to
    2^63 - 512 and the lower one to -(2^63 + 1024). *)
Definition fits_ns (mag : Z) (e : Z) (bound : Z) (strict : bool) : bool :=
  let lhs := match e with
             | Zneg p => (mag * 10 ^ 9)%Z
             | _ => (mag * 2 ^ e * 10 ^ 9)%Z
             end in
  let rhs := match e with
             | Zneg p => (bound * 2 ^ Zpos p)%Z
             | _ => bound
             end in
  if strict then Z.ltb lhs rhs else Z.leb lhs rhs.

Definition time_sleep (secs : value) : option exn :=
  match secs with
  | VBool _ => None
  | VInt z =>
      if Z.ltb z (-9223372036) || Z.ltb 9223372036 z then Some OverflowError
      else if Z.ltb z 0 then Some ValueError
      else None
  | VFloat S754_nan => Some ValueError
  | VFloat (S754_infinity _) => Some OverflowError
  | VFloat (S754_zero _) => None
  | VFloat (S754_finite false m e) =>
      if fits_ns (Z.pos m) e (2 ^ 63 - 512)%Z true then None
      else Some OverflowError
  | VFloat (S754_finite true m e) =>
      if fits_ns (Z.pos m) e (2 ^ 63 + 1024)%Z false then Some ValueError
      else Some OverflowError
  | _ => Some TypeError
  end.

(** What each call of [run] meets: the upstream of that cycle and the
    draws of the random generator. *)
Definition world : Type := nat -> upstream * (nat -> nat).

(** [run(config)] as a step of the process: an exception is not caught
    by the caller. *)
Definition run_cycle (cfg : config) (w : world) (i : nat)
  : list proc_event * res unit :=
  let (t, r) := run cfg (fst (w i)) (snd (w i)) in (map PBus t, r).

(** [while True: run(config); time.sleep(interval)], from cycle [i] on,
    for at most [fuel] iterations.  Neither call is inside a [try]. *)
Fixpoint repeat_loop (cfg : config) (interval : value) (w : world)
    (i fuel : nat) : list proc_event * outcome :=
  match fuel with
  | O => ([], Running)
  | S fuel' =>
      match run_cycle cfg w i with
      | (t, Raise e) => (t, Uncaught e)
      | (t, Ok _) =>
          match time_sleep interval with
          | Some e => ((t ++ [PSleep interval])%list, Uncaught e)
          | None =>
              let (t', o) := repeat_loop cfg interval w (S i) fuel' in
              ((t ++ PSleep interval :: t')%list, o)
          end
      end
  end.

(** The block under [if __name__ == "__main__":], for a Python recent
    enough.  [time.sleep(60)] and [time.sleep(1)] are calls it accepts. *)
Definition main (file : config_file) (argv : list string) (w : world)
    (fuel : nat) : list proc_event * outcome :=
  match file with
  | Missing => ([PSleep (VInt 60)], Exit 1)
  | Unreadable => ([], LoadFailed)
  | Loaded cfg found =>
      let interval := match found with Some v => v | None => VInt 300 end in
      match argv with
      | _ :: arg :: _ =>
          if String.eqb arg "--repeat"
          then repeat_loop cfg interval w 0 fuel
          else ([PSleep (VInt 1)], Exit 0)
      | _ =>
          match run_cycle cfg w 0 with
          | (t, Raise e) => (t, Uncaught e)
          | (t, Ok _) => ((t ++ [PSleep (VInt 1)])%list, Exit 0)
          end
      end
  end.

(** The bus calls and the pauses of the first [n] cycles of a repeating
    process. *)
Fixpoint cycles_from (cfg : config) (interval : value) (w : world)
    (i n : nat) : list proc_event :=
  match n with
  | O => []
  | S n' =>
      (fst (run_cycle cfg w i) ++ PSleep interval
       :: cycles_from cfg interval w (S i) n')%list
  end.

Definition pauses (t : list proc_event) : list value :=
  flat_map (fun e => match e with PSleep s => [s] | PBus _ => [] end) t.

(* ------------------------------------------------------------------ *)
(** ** Further vocabulary                                              *)
(* ------------------------------------------------------------------ *)

(** A record after a turn of the loop that went through. *)
Definition stripped (i : value) : value :=
  match i with
  | VDict d => VDict (dict_del "name" (dict_del "key" d))
  | _ => i
  end.

(** A record after a turn of the loop that raised: untouched, without
    [key], or without [key] and [name]. *)
Definition partly_stripped (i i' : value) : Prop :=
  i' = i \/
  (exists d, i = VDict d /\ i' = VDict (dict_del "key" d)) \/
  i' = stripped i.

Definition space_free (s : string) : Prop :=
  ~ In " "%char (list_ascii_of_string s).

Definition alphanumeric (s : string) : Prop :=
  forall c, In c (list_ascii_of_string s) ->
            In c (list_ascii_of_string (ascii_letters ++ digits)).

Definition is_mapping (v : value) : bool :=
  match v with VDict _ => true | _ => false end.

Definition is_list (v : value) : bool :=
  match v with VList _ => true | _ => false end.

Definition is_text (v : value) : bool :=
  match v with VStr _ => true | _ => false end.

(** A bare JSON number or boolean. *)
Definition is_scalar (v : value) : bool :=
  match v with VBool _ | VInt _ | VFloat _ => true | _ => false end.

(** A computation on the bus that only publishes. *)
Definition publishes_only {A} (c : Bus.IO A) : Prop :=
  exists ms, fst c = map message_event ms.

(** What may follow the messages of a cycle. *)
Definition closing_of (r : res unit) (closing : trace) : Prop :=
  closing = [] \/ (closing = [LoopStop] /\ r = Ok tt).

(** The two ways of publishing, as [run] chooses between them. *)
Definition publish_branch (cfg : config)
    (inverter_device_state station_data inverter_data inverter_data_list
     logger_data logger_data_list : value) : Bus.IO unit :=
  let topic := topic (mqtt cfg) in
  (if eq_int inverter_device_state 1 then
     publish_fields (topic ++ "/station/") (debug cfg) station_data ;;
     publish_fields (topic ++ "/inverter/") (debug cfg) inverter_data ;;
     (if truthy inverter_data_list
      then publish (topic ++ "/inverter/attributes")
                   (PJson inverter_data_list) (debug cfg)
      else Bus.ret tt) ;;
     publish_fields (topic ++ "/logger/") (debug cfg) logger_data ;;
     (if truthy logger_data_list
      then publish (topic ++ "/logger/attributes")
                   (PJson logger_data_list) (debug cfg)
      else Bus.ret tt)
   else
     st <- Bus.lift (getitem inverter_data "deviceState") ;;
     publish (topic ++ "/inverter/deviceState") (PValue st) (debug cfg) ;;
     st <- Bus.lift (getitem logger_data "deviceState") ;;
     publish (topic ++ "/logger/deviceState") (PValue st) (debug cfg))%io.

(** [run] from line 211 on. *)
Definition after_loop_start (cfg : config)
    (station_data inverter_data inverter_data_list
     logger_data logger_data_list : value) : Bus.IO unit :=
  (inverter_device_state <- Bus.lift (device_state_of inverter_data) ;;
   if is_none inverter_device_state || is_none station_data
      || is_none logger_data || is_none station_data
   then Bus.ret tt
   else
     publish_branch cfg inverter_device_state station_data inverter_data
                    inverter_data_list logger_data logger_data_list ;;
     Bus.emit LoopStop)%io.

(** The topics that received the value of a single field. *)
Definition field_topics (ms : list (string * payload)) : list string :=
  flat_map (fun m => match snd m with PValue _ => [fst m] | PJson _ => [] end) ms.

(* ------------------------------------------------------------------ *)
(** ** Further installations                                           *)
(* ------------------------------------------------------------------ *)

(** A record without [name]. *)
Definition nameless_record : value :=
  VDict [("key", VStr "k3"); ("value", VInt 7)].

Definition damaged_inverter : dict :=
  [("deviceSn", VStr "INV1"); ("deviceState", VInt 1);
   ("dataList", VList [output_power_record; nameless_record; daily_yield_record])].

Definition damaged_upstream : upstream :=
  sample_upstream token_reply (Some (VDict sample_station))
    (Some (VDict damaged_inverter)) (Some (VDict (sample_logger 1))).

(** An upstream whose digest keeps the first character only, so that
    different passwords can share a digest; it answers the token request
    when the body carries an organisation id and fails otherwise. *)
Definition folding_upstream : upstream :=
  {| sha256_hexdigest := fun s => substring 0 1 s;
     https_post := fun host path body headers =>
       match getitem body "orgId" with
       | Ok _ => token_reply
       | Raise _ => None
       end |}.

(** The token reply carries a number where the token should be. *)
Definition numeric_token_upstream : upstream :=
  sample_upstream (Some (VDict [("access_token", VInt 42)]))
    (Some (VDict sample_station))
    (Some (VDict (sample_inverter 1))) (Some (VDict (sample_logger 1))).

(** The inverter request is answered with a bare number. *)
Definition scalar_inverter_upstream : upstream :=
  sample_upstream token_reply (Some (VDict sample_station))
    (Some (VInt 0)) (Some (VDict (sample_logger 1))).

(** The station request is answered with a list. *)
Definition listed_station_upstream : upstream :=
  sample_upstream token_reply (Some (VList [VDict sample_station]))
    (Some (VDict (sample_inverter 1))) (Some (VDict (sample_logger 1))).

(** Cycle 0 and 1 find everything in order, cycle 2 meets the logger
    error, later cycles would be fine again. *)
Definition faulty_world : world :=
  fun i => (if Nat.eqb i 2 then logger_error_upstream else reachable_upstream 1,
            sample_rand).

Definition steady_world : world :=
  fun i => (reachable_upstream 3, sample_rand).

(* ------------------------------------------------------------------ *)
(** ** Dictionaries: lookup after update                               *)
(* ------------------------------------------------------------------ *)

Section DictFacts.

Variables (k k' : string) (v : value).

Lemma dict_get_del_same (d : dict) : dict_get k (dict_del k d) = None.
Proof.
  induction d as [|[a b] d IH]; simpl; [reflexivity|].
  destruct (String.eqb_spec k a) as [->|Hne]; simpl; [exact IH|].
  destruct (String.eqb_spec k a); [contradiction|exact IH].
Qed.

Lemma dict_get_del_other (d : dict) :
  k <> k' -> dict_get k (dict_del k' d) = dict_get k d.
Proof.
  intros Hne. induction d as [|[a b] d IH]; simpl; [reflexivity|].
  destruct (String.eqb_spec k' a) as [<-|Hka]; simpl.
  - destruct (String.eqb_spec k k'); [contradiction|exact IH].
  - destruct (String.eqb_spec k a); [reflexivity|exact IH].
Qed.

Lemma dict_get_set_same (d : dict) : dict_get k (dict_set k v d) = Some v.
Proof.
  induction d as [|[a b] d IH]; simpl.
  - now rewrite String.eqb_refl.
  - destruct (String.eqb_spec k a) as [->|Hne]; simpl.
    + now rewrite String.eqb_refl.
    + destruct (String.eqb_spec k a); [contradiction|exact IH].
Qed.

Lemma dict_get_set_other (d : dict) :
  k <> k' -> dict_get k (dict_set k' v d) = dict_get k d.
Proof.
  intros Hne. induction d as [|[a b] d IH]; simpl.
  - destruct (String.eqb_spec k k'); [contradiction|reflexivity].
  - destruct (String.eqb_spec k' a) as [<-|Hka]; simpl.
    + destruct (String.eqb_spec k k'); [contradiction|reflexivity].
    + destruct (String.eqb_spec k a); [reflexivity|exact IH].
Qed.

Lemma dict_del_set (d : dict) : dict_del k (dict_set k v d) = dict_del k d.
Proof.
  induction d as [|[a b] d IH]; unfold dict_del in *; simpl.
  - now rewrite String.eqb_refl.
  - destruct (String.eqb_spec k a) as [->|Hne]; simpl.
    + now rewrite String.eqb_refl.
    + destruct (String.eqb_spec k a); [contradiction|simpl; now rewrite IH].
Qed.

Lemma dict_keys_set_in (d : dict) (x : string) :
  In x (dict_keys (dict_set k v d)) -> x = k \/ In x (dict_keys d).
Proof.
  induction d as [|[a b] d IH]; simpl.
  - intros [<-|[]]. now left.
  - destruct (String.eqb_spec k a) as [->|Hne]; simpl.
    + intros [<-|H]; auto.
    + intros [<-|H]; auto. destruct (IH H); auto.
Qed.

Lemma dict_keys_set_nodup (d : dict) :
  NoDup (dict_keys d) -> NoDup (dict_keys (dict_set k v d)).
Proof.
  induction d as [|[a b] d IH]; simpl; intros H.
  - constructor; [intros []|constructor].
  - inversion H as [|? ? Hnin Hnd]; subst.
    destruct (String.eqb_spec k a) as [->|Hne]; simpl.
    + now constructor.
    + constructor; [|now apply IH].
      intros Hin. destruct (dict_keys_set_in _ _ Hin); [congruence|contradiction].
Qed.

Lemma dict_has_get (d : dict) :
  dict_has k d = true <-> exists x, dict_get k d = Some x.
Proof.
  unfold dict_has. destruct (dict_get k d) as [x|]; split.
  - intros _. now exists x.
  - reflexivity.
  - discriminate.
  - intros [x Hx]. discriminate.
Qed.

End DictFacts.

Lemma dict_in_get (k : string) (v : value) (d : dict) :
  NoDup (dict_keys d) -> In (k, v) d -> dict_get k d = Some v.
Proof.
  induction d as [|[a b] d IH]; simpl; [intros _ []|].
  intros Hnd [[= -> ->]|Hin].
  - now rewrite String.eqb_refl.
  - inversion Hnd as [|? ? Hnin Hnd']; subst.
    destruct (String.eqb_spec k a) as [->|Hne]; [|now apply IH].
    exfalso. apply Hnin. unfold dict_keys.
    change a with (fst (a, v)). now apply in_map.
Qed.

(* ------------------------------------------------------------------ *)
(** ** The transformer on well-formed input                            *)
(* ------------------------------------------------------------------ *)

Lemma record_body_ok (acc : dict) (i : value) :
  well_formed_record i = true ->
  exists i', record_body acc i = (i', Ok (add_attribute acc i)).
Proof.
  destruct i as [| | | | |l|d]; simpl; try discriminate.
  intros H. apply andb_prop in H as [H Hval]. apply andb_prop in H as [Hkey Hname].
  destruct (dict_get "name" d) as [[| | | |name| |]|] eqn:En; try discriminate.
  apply dict_has_get in Hval as [v Ev].
  assert (En1 : dict_get "name" (dict_del "key" d) = Some (VStr name))
    by (rewrite dict_get_del_other; [exact En|discriminate]).
  assert (Ev2 : dict_get "value" (dict_del "name" (dict_del "key" d)) = Some v)
    by (rewrite !dict_get_del_other; [exact Ev|discriminate|discriminate]).
  exists (VDict (dict_del "name" (dict_del "key" d))).
  unfold record_body, bind, update, inspect, lift, ret, add_attribute.
  unfold delitem, getitem, attribute_of; cbn [fst snd].
  rewrite Hkey, En1. cbn [replace].
  unfold dict_has. rewrite En1, Ev2, En, Ev. reflexivity.
Qed.

Lemma for_records_ok (recs : list value) : forall acc,
  forallb well_formed_record recs = true ->
  exists recs', for_records acc recs = (recs', Ok (fold_left add_attribute recs acc)).
Proof.
  induction recs as [|i recs IH]; intros acc H; simpl.
  - now exists [].
  - simpl in H. apply andb_prop in H as [Hi Hrest].
    destruct (record_body_ok acc i Hi) as [i' ->].
    destruct (IH (add_attribute acc i) Hrest) as [recs' ->].
    now exists (i' :: recs').
Qed.

Lemma dict_get_app (k : string) (d1 d2 : dict) :
  dict_get k (d1 ++ d2)%list =
  match dict_get k d1 with Some v => Some v | None => dict_get k d2 end.
Proof.
  induction d1 as [|[a b] d1 IH]; simpl; [reflexivity|].
  destruct (String.eqb k a); [reflexivity|exact IH].
Qed.

(** The mapping built by the loop binds each name to the value of the
    last record that carries it. *)
Lemma fold_attributes_get (k : string) (recs : list value) : forall acc,
  dict_get k (fold_left add_attribute recs acc) =
  match dict_get k (rev (map attribute_of recs)) with
  | Some v => Some v
  | None => dict_get k acc
  end.
Proof.
  induction recs as [|i recs IH]; intros acc; simpl; [reflexivity|].
  rewrite IH, dict_get_app. destruct (dict_get k (rev (map attribute_of recs))); [reflexivity|].
  unfold add_attribute. destruct (attribute_of i) as [a b]; simpl.
  destruct (String.eqb_spec k a) as [->|Hne].
  - apply dict_get_set_same.
  - now apply dict_get_set_other.
Qed.

Lemma fold_attributes_nodup (recs : list value) : forall acc,
  NoDup (dict_keys acc) -> NoDup (dict_keys (fold_left add_attribute recs acc)).
Proof.
  induction recs as [|i recs IH]; intros acc H; simpl; [exact H|].
  apply IH. unfold add_attribute. now apply dict_keys_set_nodup.
Qed.

Lemma restruct_try_well_formed (d : dict) (recs : list value) :
  dict_get "dataList" d = Some (VList recs) ->
  forallb well_formed_record recs = true ->
  restruct_try (VDict d) =
  match recs with
  | [] => (VDict d, Ok [])
  | _ => (VDict (dict_del "dataList" d), Ok (fold_left add_attribute recs []))
  end.
Proof.
  intros Hd Hwf. unfold restruct_try, bind, inspect. cbn [getitem]. rewrite Hd.
  destruct recs as [|i recs]; [reflexivity|].
  cbn [truthy iter lift].
  destruct (for_records_ok (i :: recs) [] Hwf) as [recs' ->].
  unfold update, ret, store, write_back. cbn [delitem].
  unfold dict_has. rewrite dict_get_set_same, dict_del_set. reflexivity.
Qed.

(** Whatever the call does, [data] stays a mapping and only its
    [dataList] entry can change. *)
Lemma restruct_frame (d : dict) (device : string) :
  exists d',
    snd (restruct_and_separate_current_data (VDict d) device) = VDict d' /\
    forall k, k <> "dataList" -> dict_get k d' = dict_get k d.
Proof.
  unfold restruct_and_separate_current_data, restruct_try, bind, inspect.
  cbn [getitem].
  destruct (dict_get "dataList" d) as [data_list|] eqn:Hd; [|now exists d].
  destruct (truthy data_list); [|now exists d].
  unfold lift. destruct (iter data_list) as [elems|e]; [|now exists d].
  destruct (for_records [] elems) as [elems' [m|e]]; unfold update, ret, store;
    cbn [delitem].
  - unfold dict_has. rewrite dict_get_set_same, dict_del_set.
    exists (dict_del "dataList" d). split; [reflexivity|].
    intros k Hk. now apply dict_get_del_other.
  - eexists. split; [reflexivity|].
    intros k Hk. now apply dict_get_set_other.
Qed.

(* ------------------------------------------------------------------ *)
(** ** The bus calls of one cycle                                      *)
(* ------------------------------------------------------------------ *)

Lemma published_app (t1 t2 : trace) :
  published (t1 ++ t2)%list = (published t1 ++ published t2)%list.
Proof.
  induction t1 as [|e t1 IH]; simpl; [reflexivity|].
  destruct e; simpl; now rewrite ?IH.
Qed.

Lemma published_messages (ms : list (string * payload)) :
  published (map message_event ms) = ms.
Proof.
  induction ms as [|[tp pl] ms IH]; simpl; [reflexivity|now rewrite IH].
Qed.

Lemma bind_lift_ok {A B} (a : A) (k : A -> Bus.IO B) :
  Bus.bind (Bus.lift (Ok a)) k = k a.
Proof. unfold Bus.bind, Bus.lift. now destruct (k a). Qed.

Lemma publish_hand_over (tp : string) (pl : payload) (dbg : bool) :
  publish tp pl dbg = hand_over [(tp, pl)].
Proof.
  unfold publish, hand_over, outcome_of. cbn.
  now destruct (refusal tp pl).
Qed.

Lemma first_refusal_app (ms1 ms2 : list (string * payload)) :
  first_refusal (ms1 ++ ms2)
  = match first_refusal ms1 with
    | None => first_refusal ms2
    | Some e => Some e
    end.
Proof.
  induction ms1 as [|m ms1 IH]; cbn; [reflexivity|].
  now destruct (refusal (fst m) (snd m)).
Qed.

Lemma handed_over_app (ms1 ms2 : list (string * payload)) :
  handed_over (ms1 ++ ms2)
  = match first_refusal ms1 with
    | None => (handed_over ms1 ++ handed_over ms2)%list
    | Some _ => handed_over ms1
    end.
Proof.
  induction ms1 as [|m ms1 IH]; cbn; [reflexivity|].
  destruct (refusal (fst m) (snd m)); [reflexivity|].
  rewrite IH. now destruct (first_refusal ms1).
Qed.

Lemma hand_over_bind (ms1 ms2 : list (string * payload)) :
  Bus.bind (hand_over ms1) (fun _ => hand_over ms2) = hand_over (ms1 ++ ms2).
Proof.
  unfold hand_over, outcome_of, Bus.bind.
  rewrite first_refusal_app, handed_over_app.
  destruct (first_refusal ms1); [reflexivity|now rewrite map_app].
Qed.

Lemma hand_over_then (ms : list (string * payload)) (e : event) :
  Bus.bind (hand_over ms) (fun _ => Bus.emit e)
  = ((map message_event (handed_over ms)
      ++ match first_refusal ms with None => [e] | Some _ => [] end)%list,
     outcome_of ms).
Proof.
  unfold hand_over, outcome_of, Bus.bind, Bus.emit.
  destruct (first_refusal ms); [now rewrite app_nil_r|reflexivity].
Qed.

Lemma handed_over_all (ms : list (string * payload)) :
  first_refusal ms = None -> handed_over ms = ms.
Proof.
  induction ms as [|m ms IH]; cbn; [reflexivity|].
  destruct (refusal (fst m) (snd m)); [discriminate|].
  intros H. now rewrite IH.
Qed.

(** The messages handed over are the first ones of the list. *)
Lemma handed_over_prefix (ms : list (string * payload)) :
  exists rest, ms = (handed_over ms ++ rest)%list.
Proof.
  induction ms as [|m ms [rest IH]]; cbn; [now exists []|].
  destruct (refusal (fst m) (snd m)).
  - now exists ms.
  - exists rest. cbn. congruence.
Qed.

Lemma handed_over_in (m : string * payload) (ms : list (string * payload)) :
  In m (handed_over ms) -> In m ms.
Proof.
  intros H. destruct (handed_over_prefix ms) as [rest E].
  rewrite E. apply in_or_app. now left.
Qed.

Lemma published_closing (ms : list (string * payload)) :
  published (closing_after ms) = [].
Proof. unfold closing_after. now destruct (first_refusal ms). Qed.

Lemma publish_items_messages (prefix : string) (dbg : bool) (its : dict) :
  publish_items prefix dbg its = hand_over (field_messages prefix its).
Proof.
  induction its as [|[i v] its IH]; [reflexivity|].
  cbn [publish_items]. rewrite IH. unfold field_messages. cbn [filter].
  unfold publishable at 2. cbn [fst snd].
  destruct (truthy v && negb (in_discard i)).
  - rewrite publish_hand_over. apply hand_over_bind.
  - apply (hand_over_bind []).
Qed.

Lemma publish_fields_messages (prefix : string) (dbg : bool) (d : dict) :
  publish_fields prefix dbg (VDict d) = hand_over (field_messages prefix d).
Proof.
  unfold publish_fields. cbn [items]. rewrite bind_lift_ok.
  apply publish_items_messages.
Qed.

Lemma blob_publish (tp : string) (attrs : value) (dbg : bool) :
  (if truthy attrs then publish tp (PJson attrs) dbg else Bus.ret tt) =
  hand_over (blob_messages tp attrs).
Proof.
  unfold blob_messages. destruct (truthy attrs); [apply publish_hand_over|reflexivity].
Qed.

(** The client id reaches the first call and nothing after it. *)
Lemma run_publish_opening (cfg : config)
    (station_data inverter_data inverter_data_list
     logger_data logger_data_list : value) :
  exists t r, forall rand,
    run_publish cfg rand station_data inverter_data inverter_data_list
                logger_data logger_data_list = ((opening cfg rand ++ t)%list, r).
Proof.
  unfold run_publish.
  match goal with
  | |- context [Bus.bind (Bus.lift ?x) ?k] =>
      remember (Bus.bind (Bus.lift x) k) as rest
  end.
  destruct rest as [t r]. exists t, r. intros rand. reflexivity.
Qed.

(** The cycle stops before publishing when a snapshot or the inverter's
    state is missing. *)
Lemma run_publish_abort (cfg : config) (rand : nat -> nat)
    (station_data inverter_data inverter_data_list
     logger_data logger_data_list st : value) :
  device_state_of inverter_data = Ok st ->
  is_none st || is_none station_data || is_none logger_data = true ->
  run_publish cfg rand station_data inverter_data inverter_data_list
              logger_data logger_data_list = (opening cfg rand, Ok tt).
Proof.
  intros Hst Hnone. unfold run_publish, connect_mqtt, Bus.emit.
  rewrite Hst. cbn. rewrite Hnone. reflexivity.
Qed.

Lemma device_state_of_mapping (d : dict) :
  device_state_of (VDict d) =
  Ok match dict_get "deviceState" d with Some st => st | None => VNone end.
Proof.
  unfold device_state_of, dict_has. cbn. unfold dict_has.
  destruct (dict_get "deviceState" d); reflexivity.
Qed.

Lemma run_publish_online (cfg : config) (rand : nat -> nat)
    (sd ind ld : dict) (inverter_data_list logger_data_list st : value) :
  dict_get "deviceState" ind = Some st ->
  is_none st = false ->
  eq_int st 1 = true ->
  let full := full_publication cfg (VDict sd) (VDict ind) inverter_data_list
                               (VDict ld) logger_data_list in
  run_publish cfg rand (VDict sd) (VDict ind) inverter_data_list
              (VDict ld) logger_data_list =
  ((opening cfg rand ++ map message_event (handed_over full)
    ++ closing_after full)%list, outcome_of full).
Proof.
  intros Hst Hnn Heq full. unfold run_publish, connect_mqtt, Bus.emit.
  rewrite device_state_of_mapping, Hst, !publish_fields_messages, !blob_publish.
  rewrite !hand_over_bind, bind_lift_ok, Hnn, Heq. cbn [is_none orb].
  change ([LoopStop], Ok tt) with (Bus.emit LoopStop).
  rewrite hand_over_then. unfold closing_after.
  destruct (handed_over _), (first_refusal _); reflexivity.
Qed.

Lemma run_publish_offline (cfg : config) (rand : nat -> nat)
    (sd ind ld : dict) (inverter_data_list logger_data_list st lst : value) :
  dict_get "deviceState" ind = Some st ->
  is_none st = false ->
  eq_int st 1 = false ->
  dict_get "deviceState" ld = Some lst ->
  let two := status_messages cfg st lst in
  run_publish cfg rand (VDict sd) (VDict ind) inverter_data_list
              (VDict ld) logger_data_list =
  ((opening cfg rand ++ map message_event (handed_over two)
    ++ closing_after two)%list, outcome_of two).
Proof.
  intros Hst Hnn Heq Hl two. unfold run_publish, connect_mqtt, Bus.emit.
  rewrite device_state_of_mapping, Hst, bind_lift_ok, Hnn, Heq.
  cbn [is_none orb getitem]. rewrite Hst, Hl, bind_lift_ok, publish_hand_over.
  assert (E : Bus.bind
                (hand_over [(topic (mqtt cfg) ++ "/inverter/deviceState", PValue st)])
                (fun _ =>
                   Bus.bind (Bus.lift (Ok lst))
                     (fun st0 => publish (topic (mqtt cfg) ++ "/logger/deviceState")
                                         (PValue st0) (debug cfg)))
              = hand_over two).
  { rewrite bind_lift_ok, publish_hand_over. apply hand_over_bind. }
  rewrite E.
  change ([LoopStop], Ok tt) with (Bus.emit LoopStop).
  rewrite hand_over_then. unfold closing_after.
  destruct (handed_over _), (first_refusal _); reflexivity.
Qed.

(* ------------------------------------------------------------------ *)
(** ** The transformer                                                 *)
(* ------------------------------------------------------------------ *)

Lemma append_inj_l (p a b : string) : p ++ a = p ++ b -> a = b.
Proof.
  induction p as [|c p IH]; simpl; [auto|].
  intros [= H]. now apply IH.
Qed.

Lemma append_assoc (a b c : string) : (a ++ b) ++ c = a ++ (b ++ c).
Proof. induction a as [|x a IH]; simpl; [reflexivity|now rewrite IH]. Qed.

(** C10.  Handed [None] in place of a snapshot, the transformer returns
    [None]; it does not raise, whatever the device label. *)
Theorem flatten_none (device : string) :
  restruct_and_separate_current_data VNone device = (VNone, VNone).
Proof. reflexivity. Qed.

(** C1.  On a snapshot whose [dataList] holds records of the shape
    [{key, name, value}], the transformer returns a mapping that binds, for
    each record, the record's name with spaces turned into underscores to
    the record's value (the last record wins when two share a name), and a
    non-empty [dataList] is gone from the snapshot afterwards.  For the
    single record [{key: "k1", name: "Output Power", value: 500}] the
    result is [{"Output_Power": 500}]. *)
Theorem flatten_well_formed (d : dict) (recs : list value) (device : string) :
  dict_get "dataList" d = Some (VList recs) ->
  forallb well_formed_record recs = true ->
  (exists m,
     fst (restruct_and_separate_current_data (VDict d) device) = VDict m /\
     NoDup (dict_keys m) /\
     forall k, dict_get k m = dict_get k (rev (map attribute_of recs))) /\
  (recs <> [] ->
   snd (restruct_and_separate_current_data (VDict d) device)
   = VDict (dict_del "dataList" d)) /\
  (recs = [output_power_record] ->
   restruct_and_separate_current_data (VDict d) device
   = (VDict [("Output_Power", VInt 500)], VDict (dict_del "dataList" d))).
Proof.
  intros Hd Hwf. unfold restruct_and_separate_current_data.
  rewrite (restruct_try_well_formed d recs Hd Hwf).
  split; [|split].
  - exists (fold_left add_attribute recs []).
    split; [now destruct recs|]. split.
    + apply fold_attributes_nodup. constructor.
    + intros k. rewrite fold_attributes_get.
      now destruct (dict_get k (rev (map attribute_of recs))).
  - intros Hne. destruct recs; [contradiction|reflexivity].
  - intros ->. reflexivity.
Qed.

Lemma flatten_well_formed_witness :
  fst (restruct_and_separate_current_data (VDict (sample_inverter 1)) "Inverter")
  = VDict [("Output_Power", VInt 500); ("Daily_Production_Active", VStr "3.20")]
  /\ snd (restruct_and_separate_current_data (VDict (sample_inverter 1)) "Inverter")
     = VDict [("deviceSn", VStr "INV1"); ("deviceState", VInt 1);
              ("success", VBool true)].
Proof.
  destruct (flatten_well_formed (sample_inverter 1)
              [output_power_record; daily_yield_record] "Inverter"
              eq_refl eq_refl) as [_ [Hsnd _]].
  split; [reflexivity|].
  rewrite Hsnd; [reflexivity|discriminate].
Defined.

(** C4, as the code has it.  When [dataList] is a non-empty list of
    well-formed records the transformer removes the field from the
    snapshot in place; an empty [dataList] is left where it is.  In both
    cases the per-field publication of the snapshot publishes no
    [dataList] field: in the first it is gone, in the second it is empty
    and so filtered out. *)
Theorem flatten_consumes_dataList (d : dict) (recs : list value)
    (device prefix : string) (dbg : bool) :
  NoDup (dict_keys d) ->
  dict_get "dataList" d = Some (VList recs) ->
  forallb well_formed_record recs = true ->
  let data' := snd (restruct_and_separate_current_data (VDict d) device) in
  (recs <> [] ->
   data' = VDict (dict_del "dataList" d) /\ contains "dataList" data' = Ok false) /\
  (recs = [] -> data' = VDict d) /\
  (forall pl,
     ~ In (prefix ++ "dataList", pl)
          (published (fst (publish_fields prefix dbg data')))).
Proof.
  intros Hnd Hd Hwf data'. subst data'.
  unfold restruct_and_separate_current_data.
  rewrite (restruct_try_well_formed d recs Hd Hwf).
  assert (Hfield : forall d0 pl,
             In (prefix ++ "dataList", pl)
                (published (fst (publish_fields prefix dbg (VDict d0)))) ->
             exists v, In ("dataList", v) d0 /\ truthy v = true).
  { intros d0 pl. rewrite publish_fields_messages. unfold hand_over. cbn [fst].
    rewrite published_messages. intros Hin. apply handed_over_in in Hin.
    revert Hin. unfold field_messages.
    rewrite in_map_iff. intros [[k v] [Heq Hin]]. cbn [fst snd] in Heq.
    injection Heq as Hk _. apply append_inj_l in Hk. subst k.
    apply filter_In in Hin as [Hin Hp]. exists v. split; [exact Hin|].
    unfold publishable in Hp. cbn [snd] in Hp. now apply andb_prop in Hp. }
  destruct recs as [|i recs]; cbn [snd].
  - split; [intros H; now contradiction H|]. split; [reflexivity|].
    intros pl Hin. destruct (Hfield d pl Hin) as [v [Hv Ht]].
    rewrite (dict_in_get _ _ _ Hnd Hv) in Hd. injection Hd as ->. discriminate.
  - split; [intros _|split; [discriminate|]].
    + split; [reflexivity|]. cbn [contains]. unfold dict_has.
      now rewrite dict_get_del_same.
    + intros pl Hin. destruct (Hfield _ pl Hin) as [v [Hv _]].
      apply filter_In in Hv as [_ Hv]. cbn in Hv. discriminate.
Qed.

Lemma flatten_consumes_dataList_witness :
  snd (restruct_and_separate_current_data (VDict (sample_inverter 1)) "Inverter")
  = VDict (dict_del "dataList" (sample_inverter 1))
  /\ forall pl,
       ~ In ("solarman/inverter/dataList", pl)
            (published
               (fst (publish_fields "solarman/inverter/" false
                       (snd (restruct_and_separate_current_data
                               (VDict (sample_inverter 1)) "Inverter"))))).
Proof.
  assert (Hnd : NoDup (dict_keys (sample_inverter 1))).
  { repeat constructor; simpl; intuition discriminate. }
  destruct (flatten_consumes_dataList (sample_inverter 1)
              [output_power_record; daily_yield_record] "Inverter"
              "solarman/inverter/" false Hnd eq_refl eq_refl) as [Hgone [_ Hpub]].
  split; [apply Hgone; discriminate|exact Hpub].
Defined.

(** C4 as stated fails on an empty [dataList]: the field is still in the
    snapshot after the call. *)
Lemma flatten_keeps_empty_dataList :
  restruct_and_separate_current_data
    (VDict [("deviceState", VInt 3); ("dataList", VList [])]) "Inverter"
  = (VDict [], VDict [("deviceState", VInt 3); ("dataList", VList [])])
  /\ contains "dataList"
       (snd (restruct_and_separate_current_data
               (VDict [("deviceState", VInt 3); ("dataList", VList [])])
               "Inverter"))
     = Ok true.
Proof. split; reflexivity. Qed.

(* ------------------------------------------------------------------ *)
(** ** The cycle                                                       *)
(* ------------------------------------------------------------------ *)

Lemma run_with_token (cfg : config) (up : upstream) (rand : nat -> nat) :
  is_none (token_of cfg up) = false ->
  run cfg up rand =
  run_publish cfg rand (station_of cfg up)
    (snd (restruct_and_separate_current_data (inverter_of cfg up) "Inverter"))
    (fst (restruct_and_separate_current_data (inverter_of cfg up) "Inverter"))
    (snd (restruct_and_separate_current_data (logger_of cfg up) "Logger"))
    (fst (restruct_and_separate_current_data (logger_of cfg up) "Logger")).
Proof.
  intros Htok. unfold run. rewrite Htok.
  destruct (restruct_and_separate_current_data (inverter_of cfg up) "Inverter").
  destruct (restruct_and_separate_current_data (logger_of cfg up) "Logger").
  reflexivity.
Qed.

(** The transformer leaves [deviceState] alone. *)
Lemma restruct_keeps_state (d : dict) (device : string) :
  exists d',
    snd (restruct_and_separate_current_data (VDict d) device) = VDict d' /\
    dict_get "deviceState" d' = dict_get "deviceState" d.
Proof.
  destruct (restruct_frame d device) as [d' [E F]].
  exists d'. split; [exact E|]. apply F. discriminate.
Qed.

Lemma eq_int_not_none (st : value) (n : Z) : eq_int st n = true -> is_none st = false.
Proof. now destruct st. Qed.

Lemma run_online (cfg : config) (up : upstream) (rand : nat -> nat)
    (sd ind ld : dict) (st : value) :
  is_none (token_of cfg up) = false ->
  station_of cfg up = VDict sd ->
  inverter_of cfg up = VDict ind ->
  logger_of cfg up = VDict ld ->
  dict_get "deviceState" ind = Some st ->
  eq_int st 1 = true ->
  let full := cycle_publication cfg sd ind ld in
  run cfg up rand =
  ((opening cfg rand ++ map message_event (handed_over full)
    ++ closing_after full)%list, outcome_of full).
Proof.
  intros Htok Hs Hi Hl Hst Heq. unfold cycle_publication.
  rewrite (run_with_token _ _ _ Htok), Hs, Hi, Hl.
  destruct (restruct_keeps_state ind "Inverter") as [ind' [-> Hst']].
  destruct (restruct_keeps_state ld "Logger") as [ld' [-> _]].
  rewrite Hst in Hst'.
  apply (run_publish_online cfg rand sd ind' ld' _ _ st Hst');
    [now apply eq_int_not_none with 1%Z|exact Heq].
Qed.

Lemma run_offline (cfg : config) (up : upstream) (rand : nat -> nat)
    (sd ind ld : dict) (st lst : value) :
  is_none (token_of cfg up) = false ->
  station_of cfg up = VDict sd ->
  inverter_of cfg up = VDict ind ->
  logger_of cfg up = VDict ld ->
  dict_get "deviceState" ind = Some st ->
  is_none st = false ->
  eq_int st 1 = false ->
  dict_get "deviceState" ld = Some lst ->
  let two := status_messages cfg st lst in
  run cfg up rand =
  ((opening cfg rand ++ map message_event (handed_over two)
    ++ closing_after two)%list, outcome_of two).
Proof.
  intros Htok Hs Hi Hl Hst Hnn Hne Hlst.
  rewrite (run_with_token _ _ _ Htok), Hs, Hi, Hl.
  destruct (restruct_keeps_state ind "Inverter") as [ind' [-> Hst']].
  destruct (restruct_keeps_state ld "Logger") as [ld' [-> Hlst']].
  rewrite Hst in Hst'. rewrite Hlst in Hlst'.
  now apply run_publish_offline.
Qed.

Lemma run_without_state (cfg : config) (up : upstream) (rand : nat -> nat)
    (ind : dict) :
  is_none (token_of cfg up) = false ->
  inverter_of cfg up = VDict ind ->
  dict_get "deviceState" ind = None \/ dict_get "deviceState" ind = Some VNone ->
  run cfg up rand = (opening cfg rand, Ok tt).
Proof.
  intros Htok Hi Hnone.
  rewrite (run_with_token _ _ _ Htok), Hi.
  destruct (restruct_keeps_state ind "Inverter") as [ind' [-> Hst']].
  apply run_publish_abort with VNone; [|reflexivity].
  rewrite device_state_of_mapping, Hst'. now destruct Hnone as [->| ->].
Qed.

Lemma published_cycle (cfg : config) (rand : nat -> nat)
    (ms : list (string * payload)) (closing : trace) :
  published closing = [] ->
  published (opening cfg rand ++ map message_event ms ++ closing)%list = ms.
Proof.
  intros Hc. rewrite !published_app, published_messages, Hc.
  cbn. apply app_nil_r.
Qed.

Lemma field_messages_in (prefix tp : string) (pl : payload) (d : dict) :
  In (tp, pl) (field_messages prefix d) ->
  exists k v, tp = prefix ++ k /\ pl = PValue v /\ In (k, v) d /\
              truthy v = true /\ in_discard k = false.
Proof.
  unfold field_messages. rewrite in_map_iff.
  intros [[k v] [[= <- <-] Hin]]. apply filter_In in Hin as [Hin Hp].
  unfold publishable in Hp. cbn [fst snd] in *.
  apply andb_prop in Hp as [Ht Hd]. apply negb_true_iff in Hd.
  now exists k, v.
Qed.

Lemma snapshot_messages_in (prefix tp : string) (pl : payload) (data : value) :
  In (tp, pl) (snapshot_messages prefix data) ->
  exists k v, tp = prefix ++ k /\ pl = PValue v /\
              truthy v = true /\ in_discard k = false.
Proof.
  destruct data; cbn; try contradiction.
  intros H. destruct (field_messages_in _ _ _ _ H) as (k & v & ? & ? & _ & ? & ?).
  now exists k, v.
Qed.

Lemma blob_messages_in (tp tp' : string) (v attrs : value) :
  ~ In (tp', PValue v) (blob_messages tp attrs).
Proof.
  unfold blob_messages. destruct (truthy attrs); cbn; [|tauto].
  intros [H|[]]. discriminate.
Qed.

(** C2, as the code has it.  In a cycle that publishes in full (all
    snapshots present, inverter state 1) every message that carries a single field was published for a field
    that is not metadata ([code], [msg], [requestId], [success]) and whose
    value is truthy, and no such message goes out on the topic of a
    metadata field; of the snapshot [{"code": 1, "power": 0, "energy":
    12.5}] only [energy] is published. *)
Theorem per_field_filter (cfg : config) (up : upstream) (rand : nat -> nat)
    (sd ind ld : dict) (st : value) :
  is_none (token_of cfg up) = false ->
  station_of cfg up = VDict sd ->
  inverter_of cfg up = VDict ind ->
  logger_of cfg up = VDict ld ->
  dict_get "deviceState" ind = Some st ->
  eq_int st 1 = true ->
  (forall tp v,
     In (tp, PValue v) (published (fst (run cfg up rand))) ->
     truthy v = true /\
     exists prefix field,
       In prefix (field_prefixes cfg) /\ tp = prefix ++ field /\
       in_discard field = false) /\
  (forall prefix meta v,
     In prefix (field_prefixes cfg) -> In meta discard ->
     ~ In (prefix ++ meta, PValue v) (published (fst (run cfg up rand)))) /\
  (forall prefix dbg,
     published (fst (publish_fields prefix dbg (VDict sample_station)))
     = [(prefix ++ "energy", PValue (VFloat f12_5))]).
Proof.
  intros Htok Hs Hi Hl Hst Heq.
  assert (Hfilter : forall tp v,
             In (tp, PValue v) (published (fst (run cfg up rand))) ->
             truthy v = true /\
             exists prefix field,
               In prefix (field_prefixes cfg) /\ tp = prefix ++ field /\
               in_discard field = false).
  { intros tp v. rewrite (run_online _ _ _ _ _ _ _ Htok Hs Hi Hl Hst Heq).
    cbn [fst]. rewrite published_cycle by apply published_closing.
    intros Hin. apply handed_over_in in Hin. revert Hin.
    unfold cycle_publication, full_publication. rewrite !in_app_iff.
    intros [H|[H|[H|[H|H]]]];
      try (now apply blob_messages_in in H);
      apply snapshot_messages_in in H as (k & v' & -> & [= ->] & Ht & Hd);
      (split; [exact Ht|]); eexists _, k; (split; [|split; [reflexivity|exact Hd]]);
      unfold field_prefixes; cbn; tauto. }
  split; [exact Hfilter|]. split;
    [|intros prefix dbg; rewrite publish_fields_messages; unfold hand_over;
      cbn [fst]; rewrite published_messages; cbn;
      now destruct (refusal _ _)].
  intros prefix meta v Hp Hm Hin.
  destruct (Hfilter _ _ Hin) as [_ (prefix' & field & Hp' & Heq' & Hd)].
  assert (Hmeta : in_discard meta = true).
  { unfold in_discard. apply existsb_exists. exists meta.
    split; [exact Hm|apply String.eqb_refl]. }
  unfold field_prefixes in Hp, Hp'. cbn [In] in Hp, Hp'.
  destruct Hp as [<-|[<-|[<-|[]]]]; destruct Hp' as [<-|[<-|[<-|[]]]];
    rewrite !append_assoc in Heq'; apply append_inj_l in Heq';
    cbn in Heq'; try discriminate;
    injection Heq' as ->; congruence.
Qed.

Lemma per_field_filter_witness :
  eq_int (VInt 1) 1 = true /\
  published (fst (run sample_config (reachable_upstream 1) sample_rand))
  = [("solarman/station/energy", PValue (VFloat f12_5));
     ("solarman/inverter/deviceSn", PValue (VStr "INV1"));
     ("solarman/inverter/deviceState", PValue (VInt 1));
     ("solarman/inverter/attributes",
      PJson (VDict [("Output_Power", VInt 500);
                    ("Daily_Production_Active", VStr "3.20")]));
     ("solarman/logger/deviceSn", PValue (VStr "LOG1"));
     ("solarman/logger/deviceState", PValue (VInt 1))] /\
  forall tp v,
    In (tp, PValue v)
       (published (fst (run sample_config (reachable_upstream 1) sample_rand))) ->
    truthy v = true.
Proof.
  split; [reflexivity|]. split; [reflexivity|].
  intros tp v H.
  apply (per_field_filter sample_config (reachable_upstream 1) sample_rand
           sample_station (sample_inverter 1) (sample_logger 1) (VInt 1)
           eq_refl eq_refl eq_refl eq_refl eq_refl eq_refl) in H.
  exact (proj1 H).
Defined.

(** C2 as stated fails in a cycle whose inverter is not online: the two
    status messages go out without the filter, here with the falsy
    value [0]. *)
Lemma offline_state_published_unfiltered :
  truthy (VInt 0) = false /\
  published (fst (run sample_config (reachable_upstream 0) sample_rand))
  = [("solarman/inverter/deviceState", PValue (VInt 0));
     ("solarman/logger/deviceState", PValue (VInt 0))].
Proof. split; reflexivity. Qed.

(** C3 as stated fails on an inverter snapshot whose [deviceState] is
    [null]: the three snapshots are present, the state is a value other
    than 1, and the cycle stops after starting the loop without
    publishing anything. *)
Lemma null_state_publishes_nothing :
  inverter_of sample_config null_state_upstream
  = VDict [("deviceSn", VStr "INV1"); ("deviceState", VNone)] /\
  eq_int VNone 1 = false /\
  run sample_config null_state_upstream sample_rand
  = (opening sample_config sample_rand, Ok tt) /\
  published (fst (run sample_config null_state_upstream sample_rand)) = [].
Proof. repeat split. Qed.

(** C3, as the code has it.  With the three snapshots present: when the
    inverter's [deviceState] is missing or [null] the cycle publishes
    nothing; when it equals 1 the cycle publishes the full set (station
    fields, inverter fields, inverter attributes, logger fields, logger
    attributes, in this order); for any other value it publishes the
    inverter's and the logger's [deviceState] and nothing else.  The
    last two are stated for messages the client accepts and, for the
    status messages, a logger snapshot that has a [deviceState]. *)
Theorem device_state_gating (cfg : config) (up : upstream) (rand : nat -> nat)
    (sd ind ld : dict) :
  is_none (token_of cfg up) = false ->
  station_of cfg up = VDict sd ->
  inverter_of cfg up = VDict ind ->
  logger_of cfg up = VDict ld ->
  (dict_get "deviceState" ind = None \/ dict_get "deviceState" ind = Some VNone ->
   run cfg up rand = (opening cfg rand, Ok tt)) /\
  (forall st,
     dict_get "deviceState" ind = Some st ->
     eq_int st 1 = true ->
     first_refusal (cycle_publication cfg sd ind ld) = None ->
     snd (run cfg up rand) = Ok tt /\
     published (fst (run cfg up rand)) = cycle_publication cfg sd ind ld) /\
  (forall st lst,
     dict_get "deviceState" ind = Some st ->
     is_none st = false ->
     eq_int st 1 = false ->
     dict_get "deviceState" ld = Some lst ->
     first_refusal (status_messages cfg st lst) = None ->
     snd (run cfg up rand) = Ok tt /\
     published (fst (run cfg up rand))
     = [(topic (mqtt cfg) ++ "/inverter/deviceState", PValue st);
        (topic (mqtt cfg) ++ "/logger/deviceState", PValue lst)]).
Proof.
  intros Htok Hs Hi Hl. split; [|split].
  - intros Hnone. now apply (run_without_state cfg up rand ind).
  - intros st Hst Heq Hacc.
    rewrite (run_online _ _ _ _ _ _ _ Htok Hs Hi Hl Hst Heq). cbn [fst snd].
    rewrite published_cycle by apply published_closing.
    unfold outcome_of. rewrite Hacc. split; [reflexivity|].
    now apply handed_over_all.
  - intros st lst Hst Hnn Hne Hlst Hacc.
    rewrite (run_offline _ _ _ _ _ _ _ _ Htok Hs Hi Hl Hst Hnn Hne Hlst).
    cbn [fst snd]. rewrite published_cycle by apply published_closing.
    unfold outcome_of. rewrite Hacc. split; [reflexivity|].
    now apply handed_over_all.
Qed.

Lemma device_state_gating_witness :
  published (fst (run sample_config (reachable_upstream 3) sample_rand))
  = [("solarman/inverter/deviceState", PValue (VInt 3));
     ("solarman/logger/deviceState", PValue (VInt 3))]
  /\ published (fst (run sample_config (reachable_upstream 1) sample_rand))
     = cycle_publication sample_config sample_station (sample_inverter 1)
         (sample_logger 1)
  /\ run sample_config null_state_upstream sample_rand
     = (opening sample_config sample_rand, Ok tt).
Proof.
  split; [|split].
  - exact (proj2 (proj2 (proj2 (device_state_gating sample_config
                   (reachable_upstream 3) sample_rand sample_station
                   (sample_inverter 3) (sample_logger 3)
                   eq_refl eq_refl eq_refl eq_refl))
                   (VInt 3) (VInt 3) eq_refl eq_refl eq_refl eq_refl eq_refl)).
  - exact (proj2 (proj1 (proj2 (device_state_gating sample_config
                   (reachable_upstream 1) sample_rand sample_station
                   (sample_inverter 1) (sample_logger 1)
                   eq_refl eq_refl eq_refl eq_refl))
                   (VInt 1) eq_refl eq_refl eq_refl)).
  - exact (proj1 (device_state_gating sample_config null_state_upstream
                   sample_rand sample_station
                   [("deviceSn", VStr "INV1"); ("deviceState", VNone)]
                   (sample_logger 3) eq_refl eq_refl eq_refl eq_refl)
                 (or_intror eq_refl)).
Defined.

Lemma restruct_absent (data : value) (device : string) :
  is_none data = true ->
  snd (restruct_and_separate_current_data data device) = VNone.
Proof. destruct data; try discriminate. reflexivity. Qed.

Lemma device_state_after_flatten (data : value) (device : string) :
  absent_or_mapping data = true ->
  exists st,
    device_state_of (snd (restruct_and_separate_current_data data device)) = Ok st /\
    (is_none data = true -> st = VNone).
Proof.
  destruct data; try discriminate; intros _.
  - exists VNone. split; reflexivity.
  - destruct (restruct_frame d device) as [d' [-> _]].
    rewrite device_state_of_mapping. eexists. split; [reflexivity|discriminate].
Qed.

(** C5.  When the token exchange fails, or the station, inverter or
    logger result is absent, the cycle publishes nothing and [run]
    returns normally, so that the caller goes on to the next cycle.  The
    inverter result is taken to be absent or a mapping, as a snapshot
    is. *)
Theorem failed_fetch_aborts (cfg : config) (up : upstream) (rand : nat -> nat) :
  is_none (token_of cfg up) || is_none (station_of cfg up)
  || is_none (inverter_of cfg up) || is_none (logger_of cfg up) = true ->
  absent_or_mapping (inverter_of cfg up) = true ->
  published (fst (run cfg up rand)) = [] /\ snd (run cfg up rand) = Ok tt.
Proof.
  intros Habs Hshape.
  destruct (is_none (token_of cfg up)) eqn:Htok.
  - unfold run. rewrite Htok. split; reflexivity.
  - rewrite (run_with_token _ _ _ Htok). cbn [orb] in Habs.
    destruct (device_state_after_flatten (inverter_of cfg up) "Inverter" Hshape)
      as [st [Hst Hnone]].
    rewrite (run_publish_abort _ _ _ _ _ _ _ st Hst); [split; reflexivity|].
    destruct (is_none (inverter_of cfg up)) eqn:Hinv.
    + now rewrite Hnone.
    + destruct (is_none (station_of cfg up)).
      * now rewrite orb_true_r.
      * cbn [orb] in Habs. rewrite (restruct_absent _ _ Habs).
        cbn. now rewrite !orb_true_r.
Qed.

Lemma failed_fetch_aborts_witness :
  (is_none (station_of sample_config station_down_upstream) = true /\
   published (fst (run sample_config station_down_upstream sample_rand)) = [] /\
   snd (run sample_config station_down_upstream sample_rand) = Ok tt) /\
  (is_none (token_of sample_config auth_failed_upstream) = true /\
   run sample_config auth_failed_upstream sample_rand = ([], Ok tt)).
Proof.
  split; (split; [reflexivity|]).
  - exact (failed_fetch_aborts sample_config station_down_upstream sample_rand
             eq_refl eq_refl).
  - reflexivity.
Defined.

Lemma restruct_no_attributes (d : dict) (device : string) :
  no_attributes d = true ->
  restruct_and_separate_current_data (VDict d) device
  = (if dict_has "dataList" d then VDict [] else VNone, VDict d).
Proof.
  unfold no_attributes, restruct_and_separate_current_data, restruct_try,
    bind, inspect, dict_has.
  cbn [getitem]. destruct (dict_get "dataList" d) as [data_list|]; [|reflexivity].
  intros H. apply negb_true_iff in H. now rewrite H.
Qed.

Lemma blob_messages_none (tp : string) (has : bool) :
  blob_messages tp (if has then VDict [] else VNone) = [].
Proof. now destruct has. Qed.


(** C9.  Two runs of the cycle on the same configuration and the same
    upstream responses publish the same topic/payload pairs in the same
    order and end the same way, whatever client ids are drawn: the id
    reaches no topic and no payload. *)
Theorem client_id_independence (cfg : config) (up : upstream)
    (rand1 rand2 : nat -> nat) :
  published (fst (run cfg up rand1)) = published (fst (run cfg up rand2)) /\
  snd (run cfg up rand1) = snd (run cfg up rand2).
Proof.
  unfold run. destruct (is_none (token_of cfg up)); [split; reflexivity|].
  destruct (restruct_and_separate_current_data (inverter_of cfg up) "Inverter")
    as [inverter_data_list inverter_data].
  destruct (restruct_and_separate_current_data (logger_of cfg up) "Logger")
    as [logger_data_list logger_data].
  destruct (run_publish_opening cfg (station_of cfg up) inverter_data
              inverter_data_list logger_data logger_data_list) as (t & r & H).
  rewrite !H. cbn [fst snd]. rewrite !published_app. split; reflexivity.
Qed.

(** C6 does not hold of the code.  With the inverter offline and a
    logger snapshot that lacks [deviceState], [run] publishes the
    inverter's state and then raises [KeyError] out of the cycle: the
    logger's field is subscripted without the test that guards the
    inverter's. *)
Theorem run_raises_without_logger_state :
  run sample_config logger_error_upstream sample_rand
  = ((opening sample_config sample_rand
      ++ [Publish "solarman/inverter/deviceState" (PValue (VInt 3))])%list,
     Raise (KeyError "deviceState")).
Proof. reflexivity. Qed.

(** C8 does not hold of the code.  A cycle that stops after the
    connection is opened, here because the station request failed,
    returns with the client connected and its network loop started once
    and never stopped. *)
Theorem aborted_cycle_leaves_loop_running :
  run sample_config station_down_upstream sample_rand
  = (opening sample_config sample_rand, Ok tt) /\
  count_event is_connect (fst (run sample_config station_down_upstream sample_rand)) = 1 /\
  count_event is_loop_start (fst (run sample_config station_down_upstream sample_rand)) = 1 /\
  count_event is_loop_stop (fst (run sample_config station_down_upstream sample_rand)) = 0.
Proof. repeat split. Qed.

(* ------------------------------------------------------------------ *)
(** ** More on the transformer                                         *)
(* ------------------------------------------------------------------ *)

Lemma dict_set_same_value (k : string) (v : value) (d : dict) :
  dict_get k d = Some v -> dict_set k v d = d.
Proof.
  induction d as [|[a b] d IH]; simpl; [discriminate|].
  destruct (String.eqb_spec k a) as [->|Hne].
  - now intros [= ->].
  - intros H. now rewrite IH.
Qed.

Lemma dict_set_fresh (k : string) (v : value) (d : dict) :
  ~ In k (dict_keys d) -> dict_set k v d = (d ++ [(k, v)])%list.
Proof.
  induction d as [|[a b] d IH]; simpl; [reflexivity|].
  intros Hnin. destruct (String.eqb_spec k a) as [->|Hne].
  - exfalso. apply Hnin. now left.
  - rewrite IH; [reflexivity|]. intros Hin. apply Hnin. now right.
Qed.

Lemma dict_set_in (k : string) (v : value) (d : dict) : In (k, v) (dict_set k v d).
Proof.
  induction d as [|[a b] d IH]; simpl; [now left|].
  destruct (String.eqb k a); [now left|now right].
Qed.

Lemma dict_del_absent (k : string) (d : dict) :
  dict_get k d = None -> dict_del k d = d.
Proof.
  induction d as [|[a b] d IH]; simpl; [reflexivity|].
  destruct (String.eqb k a); [discriminate|].
  intros H. simpl. now rewrite IH.
Qed.

(** A record that is not well formed stops the loop. *)
Lemma record_body_fails (acc : dict) (i : value) :
  well_formed_record i = false ->
  exists i' e, record_body acc i = (i', Raise e).
Proof.
  unfold record_body, bind, update, inspect, lift, ret.
  destruct i as [| | | | |l|d]; try (intros _; eexists _, _; reflexivity).
  unfold well_formed_record, delitem, getitem.
  destruct (dict_has "key" d) eqn:Hkey; [|intros _; eexists _, _; reflexivity].
  assert (En1 : dict_get "name" (dict_del "key" d) = dict_get "name" d)
    by (apply dict_get_del_other; discriminate).
  assert (Ev2 : dict_get "value" (dict_del "name" (dict_del "key" d))
                = dict_get "value" d)
    by (rewrite !dict_get_del_other; [reflexivity|discriminate|discriminate]).
  rewrite En1.
  destruct (dict_get "name" d) as [[| | | |name| |]|] eqn:En;
    try (intros _; eexists _, _; reflexivity).
  cbn [replace andb]. unfold dict_has. rewrite En1, ?En, Ev2.
  destruct (dict_get "value" d); [discriminate|].
  intros _. eexists _, _. reflexivity.
Qed.

(** A turn of the loop that succeeds adds one key, which [replace]
    produced. *)
Lemma record_body_adds (acc m : dict) (i i' : value) :
  record_body acc i = (i', Ok m) ->
  exists name v, m = dict_set (replace_char " " "_" name) v acc.
Proof.
  unfold record_body, bind, update, inspect, lift, ret.
  destruct (delitem i "key") as [i1|e]; [|discriminate].
  destruct (getitem i1 "name") as [n|e]; [|discriminate].
  destruct n as [| | | |name| |]; cbn [replace]; try discriminate.
  destruct (delitem i1 "name") as [i2|e]; [|discriminate].
  destruct (getitem i2 "value") as [v|e]; [|discriminate].
  intros [= _ <-]. now exists name, v.
Qed.

Lemma for_records_length (recs : list value) : forall acc,
  List.length (fst (for_records acc recs)) = List.length recs.
Proof.
  induction recs as [|i recs IH]; intros acc; simpl; [reflexivity|].
  destruct (record_body acc i) as [i' [m|e]]; [|reflexivity].
  specialize (IH m). destruct (for_records m recs) as [rest' r].
  simpl in *. now rewrite IH.
Qed.

Lemma for_records_fails (recs : list value) : forall acc,
  forallb well_formed_record recs = false ->
  exists e, snd (for_records acc recs) = Raise e.
Proof.
  induction recs as [|i recs IH]; intros acc H; simpl in *; [discriminate|].
  destruct (well_formed_record i) eqn:Hi.
  - destruct (record_body_ok acc i Hi) as [i' ->].
    destruct (IH (add_attribute acc i) H) as [e He].
    destruct (for_records (add_attribute acc i) recs) as [rest' r].
    now exists e.
  - destruct (record_body_fails acc i Hi) as (i' & e & ->). now exists e.
Qed.

Lemma replace_char_free (old new : ascii) (s : string) :
  old <> new -> ~ In old (list_ascii_of_string (replace_char old new s)).
Proof.
  intros Hne. induction s as [|c s IH]; simpl; [tauto|].
  intros [H|H]; [|now apply IH].
  destruct (Ascii.eqb_spec c old); congruence.
Qed.

Lemma for_records_keys (P : string -> Prop) (recs : list value) :
  (forall name, P (replace_char " " "_" name)) ->
  forall acc recs' m,
    for_records acc recs = (recs', Ok m) ->
    (forall k, In k (dict_keys acc) -> P k) ->
    forall k, In k (dict_keys m) -> P k.
Proof.
  intros HP. induction recs as [|i recs IH]; intros acc recs' m; simpl.
  - intros [= _ <-]. auto.
  - destruct (record_body acc i) as [i' [m1|e]] eqn:Hb; [|discriminate].
    destruct (for_records m1 recs) as [rest' r] eqn:Hf.
    intros [= _ ->] Hacc. apply (IH m1 rest' m Hf).
    destruct (record_body_adds _ _ _ _ Hb) as (name & v & ->).
    intros k Hk. destruct (dict_keys_set_in _ _ _ _ Hk) as [->|Hin]; auto.
Qed.

Lemma fold_attributes_distinct (recs : list value) : forall acc,
  NoDup (dict_keys acc ++ map fst (map attribute_of recs))%list ->
  fold_left add_attribute recs acc = (acc ++ map attribute_of recs)%list.
Proof.
  induction recs as [|i recs IH]; intros acc; simpl.
  - intros _. now rewrite app_nil_r.
  - unfold add_attribute at 2. destruct (attribute_of i) as [a b].
    cbn [fst snd]. intros Hnd.
    pose proof (NoDup_remove_2 _ _ _ Hnd) as Hnin.
    rewrite dict_set_fresh by (intros Hin; apply Hnin, in_or_app; now left).
    rewrite IH, <- app_assoc; [reflexivity|].
    unfold dict_keys. rewrite map_app, <- app_assoc. exact Hnd.
Qed.

(** X1.  Whatever the transformer is given, it changes nothing but the
    [dataList] entry: something that is not a mapping comes back as it
    was, with the result [None], and a mapping keeps all its other
    fields, with their values and in their order. *)
Theorem flatten_frame (data : value) (device : string) :
  (is_mapping data = false ->
   restruct_and_separate_current_data data device = (VNone, data)) /\
  (forall d, data = VDict d ->
   exists d',
     snd (restruct_and_separate_current_data data device) = VDict d' /\
     dict_del "dataList" d' = dict_del "dataList" d).
Proof.
  split.
  - destruct data; try discriminate; reflexivity.
  - intros d ->.
    unfold restruct_and_separate_current_data, restruct_try, bind, inspect.
    cbn [getitem].
    destruct (dict_get "dataList" d) as [data_list|] eqn:Hd; [|now exists d].
    destruct (truthy data_list); [|now exists d].
    unfold lift. destruct (iter data_list) as [elems|e]; [|now exists d].
    destruct (for_records [] elems) as [elems' [m|e]]; unfold update, ret, store;
      cbn [delitem].
    + unfold dict_has. rewrite dict_get_set_same, dict_del_set.
      exists (dict_del "dataList" d). split; [reflexivity|].
      apply dict_del_absent, dict_get_del_same.
    + eexists. split; [reflexivity|]. apply dict_del_set.
Qed.

Lemma flatten_frame_witness :
  restruct_and_separate_current_data (VList [VInt 1]) "Logger"
  = (VNone, VList [VInt 1]) /\
  exists d',
    snd (restruct_and_separate_current_data (VDict damaged_inverter) "Inverter")
    = VDict d' /\
    dict_del "dataList" d' = [("deviceSn", VStr "INV1"); ("deviceState", VInt 1)].
Proof.
  split.
  - exact (proj1 (flatten_frame (VList [VInt 1]) "Logger") eq_refl).
  - exact (proj2 (flatten_frame (VDict damaged_inverter) "Inverter")
                 damaged_inverter eq_refl).
Defined.

Lemma record_body_strips (acc : dict) (i : value) :
  well_formed_record i = true ->
  record_body acc i = (stripped i, Ok (add_attribute acc i)).
Proof.
  destruct i as [| | | | |l|d]; simpl; try discriminate.
  intros H. apply andb_prop in H as [H Hval]. apply andb_prop in H as [Hkey Hname].
  destruct (dict_get "name" d) as [[| | | |name| |]|] eqn:En; try discriminate.
  apply dict_has_get in Hval as [v Ev].
  assert (En1 : dict_get "name" (dict_del "key" d) = Some (VStr name))
    by (rewrite dict_get_del_other; [exact En|discriminate]).
  assert (Ev2 : dict_get "value" (dict_del "name" (dict_del "key" d)) = Some v)
    by (rewrite !dict_get_del_other; [exact Ev|discriminate|discriminate]).
  unfold record_body, bind, update, inspect, lift, ret, add_attribute.
  unfold delitem, getitem, attribute_of; cbn [fst snd].
  rewrite Hkey, En1. cbn [replace].
  unfold dict_has. rewrite En1, Ev2, En, Ev. reflexivity.
Qed.

Lemma record_body_stops (acc : dict) (i : value) :
  well_formed_record i = false ->
  exists i' e, record_body acc i = (i', Raise e) /\ partly_stripped i i'.
Proof.
  unfold record_body, bind, update, inspect, lift, ret, partly_stripped.
  destruct i as [| | | | |l|d];
    try (intros _; eexists _, _; split; [reflexivity|now left]).
  unfold well_formed_record, delitem, getitem.
  destruct (dict_has "key" d) eqn:Hkey;
    [|intros _; eexists _, _; split; [reflexivity|now left]].
  assert (En1 : dict_get "name" (dict_del "key" d) = dict_get "name" d)
    by (apply dict_get_del_other; discriminate).
  assert (Ev2 : dict_get "value" (dict_del "name" (dict_del "key" d))
                = dict_get "value" d)
    by (rewrite !dict_get_del_other; [reflexivity|discriminate|discriminate]).
  rewrite En1.
  destruct (dict_get "name" d) as [[| | | |name| |]|] eqn:En;
    try (intros _; eexists _, _; split; [reflexivity|right; left; now exists d]).
  cbn [replace andb]. unfold dict_has. rewrite En1, ?En, Ev2.
  destruct (dict_get "value" d); [discriminate|].
  intros _. eexists _, _. split; [reflexivity|now right; right].
Qed.

Lemma for_records_stops (recs : list value) : forall acc,
  forallb well_formed_record recs = false ->
  exists good bad bad' rest e,
    recs = (good ++ bad :: rest)%list /\
    forallb well_formed_record good = true /\
    well_formed_record bad = false /\
    partly_stripped bad bad' /\
    for_records acc recs = ((map stripped good ++ bad' :: rest)%list, Raise e).
Proof.
  induction recs as [|i recs IH]; intros acc H; simpl in *; [discriminate|].
  destruct (well_formed_record i) eqn:Hi.
  - rewrite (record_body_strips acc i Hi).
    destruct (IH (add_attribute acc i) H)
      as (good & bad & bad' & rest & e & -> & Hg & Hb & Hp & ->).
    exists (i :: good), bad, bad', rest, e. cbn. rewrite Hi, Hg. now repeat split.
  - destruct (record_body_stops acc i Hi) as (i' & e & -> & Hp).
    exists [], i, i', recs, e. now repeat split.
Qed.

(** X2.  One record that is not of the shape [{key, name, value}] with a
    textual name makes the transformer give up: the result is [None] and
    [dataList] stays in the snapshot.  In the list that stays, the
    records before the first bad one have lost [key] and [name], the bad
    one has lost at most those, and the records after it are as they
    were. *)
Theorem flatten_malformed_record (d : dict) (recs : list value)
    (device : string) :
  dict_get "dataList" d = Some (VList recs) ->
  forallb well_formed_record recs = false ->
  exists good bad bad' rest,
    recs = (good ++ bad :: rest)%list /\
    forallb well_formed_record good = true /\
    well_formed_record bad = false /\
    partly_stripped bad bad' /\
    restruct_and_separate_current_data (VDict d) device
    = (VNone,
       VDict (dict_set "dataList"
                (VList (map stripped good ++ bad' :: rest)) d)).
Proof.
  intros Hd Hbad.
  unfold restruct_and_separate_current_data, restruct_try, bind, inspect.
  cbn [getitem]. rewrite Hd.
  destruct recs as [|i recs]; [discriminate|]. cbn [truthy iter lift].
  destruct (for_records_stops (i :: recs) [] Hbad)
    as (good & bad & bad' & rest & e & Hrecs & Hg & Hb & Hp & ->).
  exists good, bad, bad', rest. now repeat split.
Qed.

Lemma flatten_malformed_record_witness :
  exists good bad bad' rest,
    [output_power_record; nameless_record; daily_yield_record]
    = (good ++ bad :: rest)%list /\
    well_formed_record bad = false /\
    restruct_and_separate_current_data (VDict damaged_inverter) "Inverter"
    = (VNone,
       VDict (dict_set "dataList"
                (VList (map stripped good ++ bad' :: rest)) damaged_inverter)).
Proof.
  destruct (flatten_malformed_record damaged_inverter
              [output_power_record; nameless_record; daily_yield_record]
              "Inverter" eq_refl eq_refl)
    as (good & bad & bad' & rest & H1 & _ & H3 & _ & H5).
  now exists good, bad, bad', rest.
Defined.

(** X3.  A [dataList] that is not a list is never consumed: when it is
    falsy ([null], [0], [""], [{}]) the result is the empty mapping, when
    it is truthy (a text, a mapping, a number) the result is [None]; the
    snapshot is left exactly as it was. *)
Theorem flatten_non_list (d : dict) (data_list : value) (device : string) :
  dict_get "dataList" d = Some data_list ->
  is_list data_list = false ->
  restruct_and_separate_current_data (VDict d) device
  = (if truthy data_list then VNone else VDict [], VDict d).
Proof.
  intros Hd Hnl.
  unfold restruct_and_separate_current_data, restruct_try, bind, inspect.
  cbn [getitem]. rewrite Hd.
  destruct (truthy data_list) eqn:Ht; [|reflexivity].
  destruct data_list as [|b|z|f|s|l|d0]; try discriminate; try reflexivity.
  - destruct s as [|c s]; [discriminate|].
    cbn. now rewrite (dict_set_same_value _ _ _ Hd).
  - destruct d0 as [|[k v] d0]; [discriminate|].
    cbn. now rewrite (dict_set_same_value _ _ _ Hd).
Qed.

Lemma flatten_non_list_witness :
  restruct_and_separate_current_data
    (VDict [("deviceState", VInt 1); ("dataList", VStr "n/a")]) "Logger"
  = (VNone, VDict [("deviceState", VInt 1); ("dataList", VStr "n/a")]) /\
  restruct_and_separate_current_data
    (VDict [("deviceState", VInt 1); ("dataList", VNone)]) "Logger"
  = (VDict [], VDict [("deviceState", VInt 1); ("dataList", VNone)]).
Proof.
  split.
  - exact (flatten_non_list [("deviceState", VInt 1); ("dataList", VStr "n/a")]
             (VStr "n/a") "Logger" eq_refl eq_refl).
  - exact (flatten_non_list [("deviceState", VInt 1); ("dataList", VNone)]
             VNone "Logger" eq_refl eq_refl).
Defined.

(** X4.  The attributes are handed out once: after a call that consumed
    a non-empty list of well-formed records, a second call on the same
    snapshot returns [None] and changes nothing. *)
Theorem flatten_twice (d : dict) (recs : list value) (device device' : string) :
  dict_get "dataList" d = Some (VList recs) ->
  forallb well_formed_record recs = true ->
  recs <> [] ->
  restruct_and_separate_current_data
    (snd (restruct_and_separate_current_data (VDict d) device)) device'
  = (VNone, VDict (dict_del "dataList" d)).
Proof.
  intros Hd Hwf Hne. unfold restruct_and_separate_current_data at 2.
  rewrite (restruct_try_well_formed d recs Hd Hwf).
  destruct recs as [|i recs]; [contradiction|]. cbn [snd].
  rewrite restruct_no_attributes.
  - unfold dict_has. now rewrite dict_get_del_same.
  - unfold no_attributes. now rewrite dict_get_del_same.
Qed.

Lemma flatten_twice_witness :
  restruct_and_separate_current_data
    (snd (restruct_and_separate_current_data (VDict (sample_inverter 1)) "Inverter"))
    "Inverter"
  = (VNone, VDict [("deviceSn", VStr "INV1"); ("deviceState", VInt 1);
                   ("success", VBool true)]).
Proof.
  exact (flatten_twice (sample_inverter 1)
           [output_power_record; daily_yield_record] "Inverter" "Inverter"
           eq_refl eq_refl ltac:(discriminate)).
Defined.

(** X5.  No key of a mapping returned by the transformer contains a
    space, whatever the input was. *)
Theorem flatten_keys_space_free (data : value) (device : string) (m : dict) :
  fst (restruct_and_separate_current_data data device) = VDict m ->
  forall k, In k (dict_keys m) -> space_free k.
Proof.
  unfold restruct_and_separate_current_data, restruct_try, bind, inspect.
  destruct (getitem data "dataList") as [data_list|e]; [|discriminate].
  destruct (truthy data_list); [|intros [= <-] k []].
  unfold lift. destruct (iter data_list) as [elems|e]; [|discriminate].
  destruct (for_records [] elems) as [elems' [m0|e]] eqn:Hf; [|discriminate].
  unfold update, ret.
  destruct (delitem (store data "dataList" (write_back data_list elems')) "dataList");
    [|discriminate].
  intros [= <-].
  apply (for_records_keys space_free elems
           (fun name => replace_char_free " " "_" name ltac:(discriminate))
           [] elems' m0 Hf).
  intros k [].
Qed.

Lemma flatten_keys_space_free_witness :
  space_free "Output_Power" /\ space_free "Daily_Production_Active".
Proof.
  split;
    apply (flatten_keys_space_free (VDict (sample_inverter 1)) "Inverter"
             [("Output_Power", VInt 500); ("Daily_Production_Active", VStr "3.20")]
             eq_refl);
    cbn; tauto.
Defined.

(** X6.  When the records are well formed and no two of them end up with
    the same name, the result lists the attributes exactly in the order
    of the records. *)
Theorem flatten_distinct_names (d : dict) (recs : list value) (device : string) :
  dict_get "dataList" d = Some (VList recs) ->
  forallb well_formed_record recs = true ->
  NoDup (map fst (map attribute_of recs)) ->
  fst (restruct_and_separate_current_data (VDict d) device)
  = VDict (map attribute_of recs).
Proof.
  intros Hd Hwf Hnd. unfold restruct_and_separate_current_data.
  rewrite (restruct_try_well_formed d recs Hd Hwf).
  destruct recs as [|i recs]; [reflexivity|]. cbn [fst].
  now rewrite (fold_attributes_distinct (i :: recs) [] Hnd).
Qed.

Lemma flatten_distinct_names_witness :
  fst (restruct_and_separate_current_data (VDict (sample_inverter 1)) "Inverter")
  = VDict [("Output_Power", VInt 500); ("Daily_Production_Active", VStr "3.20")].
Proof.
  apply (flatten_distinct_names (sample_inverter 1)
           [output_power_record; daily_yield_record] "Inverter" eq_refl eq_refl).
  repeat constructor; cbn; intuition discriminate.
Defined.

(* ------------------------------------------------------------------ *)
(** ** More on the fetch functions and the client id                   *)
(* ------------------------------------------------------------------ *)

(** X7.  The token request carries the password only as its digest:
    two calls that differ in the password but not in its digest get the
    same answer from any upstream, with or without an organisation id.
    A falsy organisation id is not sent: any two of them give the same
    answer. *)
Theorem get_token_hides_password (up : upstream)
    (url appid secret username p1 p2 : string) (orgId o1 o2 : value) :
  sha256_hexdigest up p1 = sha256_hexdigest up p2 ->
  get_token up url appid secret username p1 orgId
  = get_token up url appid secret username p2 orgId /\
  (truthy o1 = false -> truthy o2 = false ->
   get_token up url appid secret username p1 o1
   = get_token up url appid secret username p2 o2).
Proof.
  intros Hh. unfold get_token. rewrite Hh. split; [reflexivity|].
  intros H1 H2. now rewrite H1, H2.
Qed.

Lemma get_token_hides_password_witness :
  sha256_hexdigest folding_upstream "pw-one"
  = sha256_hexdigest folding_upstream "pw-two" /\
  get_token folding_upstream "api" "1" "s" "me" "pw-one" (VStr "org1")
  = get_token folding_upstream "api" "1" "s" "me" "pw-two" (VStr "org1") /\
  get_token folding_upstream "api" "1" "s" "me" "pw-one" VNone
  = get_token folding_upstream "api" "1" "s" "me" "pw-two" (VStr "").
Proof.
  split; [reflexivity|].
  destruct (get_token_hides_password folding_upstream "api" "1" "s" "me"
              "pw-one" "pw-two" (VStr "org1") VNone (VStr "") eq_refl)
    as [Hsame Hfalsy].
  split; [exact Hsame|exact (Hfalsy eq_refl eq_refl)].
Defined.

Lemma string_of_list_length (l : list ascii) :
  String.length (string_of_list_ascii l) = List.length l.
Proof. induction l as [|c l IH]; simpl; [reflexivity|now rewrite IH]. Qed.

(** X8.  A client id has exactly the length asked for and consists of
    ASCII letters and digits only, whatever the generator draws. *)
Theorem client_id_alphanumeric (rand : nat -> nat) (n : nat) :
  String.length (generate_client_id rand n) = n /\
  alphanumeric (generate_client_id rand n).
Proof.
  unfold generate_client_id, random_choices, alphanumeric.
  set (pop := list_ascii_of_string (ascii_letters ++ digits)).
  split.
  - now rewrite string_of_list_length, length_map, length_seq.
  - intros c. rewrite list_ascii_of_string_of_list_ascii, in_map_iff.
    intros [j [<- _]]. apply nth_In, Nat.mod_upper_bound.
    subst pop. discriminate.
Qed.

(* ------------------------------------------------------------------ *)
(** ** More on the cycle                                               *)
(* ------------------------------------------------------------------ *)

Lemma run_publish_split (cfg : config) (rand : nat -> nat)
    (station_data inverter_data inverter_data_list
     logger_data logger_data_list : value) :
  run_publish cfg rand station_data inverter_data inverter_data_list
              logger_data logger_data_list
  = ((opening cfg rand
      ++ fst (after_loop_start cfg station_data inverter_data
                inverter_data_list logger_data logger_data_list))%list,
     snd (after_loop_start cfg station_data inverter_data
            inverter_data_list logger_data logger_data_list)).
Proof.
  unfold run_publish, after_loop_start, publish_branch.
  match goal with
  | |- context [Bus.bind (Bus.lift ?x) ?k] =>
      destruct (Bus.bind (Bus.lift x) k) as [t r]
  end.
  reflexivity.
Qed.


Lemma publishes_only_ret {A} (a : A) : publishes_only (Bus.ret a).
Proof. now exists []. Qed.

Lemma publishes_only_lift {A} (r : res A) : publishes_only (Bus.lift r).
Proof. now exists []. Qed.

Lemma publishes_only_publish (tp : string) (pl : payload) (dbg : bool) :
  publishes_only (publish tp pl dbg).
Proof. now exists [(tp, pl)]. Qed.

Lemma publishes_only_bind {A B} (c : Bus.IO A) (k : A -> Bus.IO B) :
  publishes_only c -> (forall a, publishes_only (k a)) ->
  publishes_only (Bus.bind c k).
Proof.
  intros [ms Hc] Hk. destruct c as [t [a|e]]; cbn [fst] in Hc; subst t.
  - destruct (Hk a) as [ms' Hk']. unfold Bus.bind.
    destruct (k a) as [t' r]. cbn [fst] in *. subst t'.
    exists (ms ++ ms')%list. now rewrite map_app.
  - now exists ms.
Qed.

Lemma publishes_only_fields (prefix : string) (dbg : bool) (data : value) :
  publishes_only (publish_fields prefix dbg data).
Proof.
  destruct data; try (now exists []).
  rewrite publish_fields_messages. now eexists.
Qed.

Create HintDb bus.
#[local] Hint Resolve publishes_only_ret publishes_only_lift
  publishes_only_publish publishes_only_fields : bus.

Ltac publishes :=
  repeat first
    [ solve [auto with bus]
    | match goal with |- publishes_only (if ?b then _ else _) => destruct b end
    | apply publishes_only_bind; [|intros ?] ].

Lemma publishes_only_branch (cfg : config)
    (st station_data inverter_data inverter_data_list
     logger_data logger_data_list : value) :
  publishes_only (publish_branch cfg st station_data inverter_data
                    inverter_data_list logger_data logger_data_list).
Proof. unfold publish_branch. cbv zeta. publishes. Qed.

(** X9.  The calls a cycle makes on the bus have one shape.  Without a
    token there is none.  With a token the client is created, given its
    credentials, connected and its loop started, in this order and once;
    then come publications only; then at most one [loop_stop], which is
    there only if [run] returned normally and is there whenever it
    returned normally after publishing something.  Nothing is published
    before the loop is started or after it is stopped. *)
Theorem cycle_shape (cfg : config) (up : upstream) (rand : nat -> nat) :
  (is_none (token_of cfg up) = true -> run cfg up rand = ([], Ok tt)) /\
  (is_none (token_of cfg up) = false ->
   exists ms closing,
     fst (run cfg up rand)
     = (opening cfg rand ++ map message_event ms ++ closing)%list /\
     closing_of (snd (run cfg up rand)) closing /\
     (ms <> [] -> snd (run cfg up rand) = Ok tt -> closing = [LoopStop])).
Proof.
  split; intros Htok.
  - unfold run. now rewrite Htok.
  - rewrite (run_with_token _ _ _ Htok), run_publish_split. cbn [fst snd].
    unfold after_loop_start, closing_of.
    destruct (device_state_of _) as [st|e].
    + rewrite bind_lift_ok.
      destruct (is_none st || _ || _ || _).
      * exists [], []. cbn. tauto.
      * match goal with
        | |- context [Bus.bind ?b _] =>
            destruct (publishes_only_branch cfg st
                        (station_of cfg up)
                        (snd (restruct_and_separate_current_data
                                (inverter_of cfg up) "Inverter"))
                        (fst (restruct_and_separate_current_data
                                (inverter_of cfg up) "Inverter"))
                        (snd (restruct_and_separate_current_data
                                (logger_of cfg up) "Logger"))
                        (fst (restruct_and_separate_current_data
                                (logger_of cfg up) "Logger"))) as [ms Hms];
            destruct b as [tb [[]|e]]
        end; cbn [fst snd Bus.bind Bus.emit] in *; subst tb.
        -- exists ms, [LoopStop]. auto.
        -- exists ms, []. rewrite app_nil_r. repeat split; auto. discriminate.
    + exists [], []. cbn. repeat split; auto. discriminate.
Qed.

Lemma cycle_shape_witness :
  run sample_config auth_failed_upstream sample_rand = ([], Ok tt) /\
  exists ms closing,
    fst (run sample_config (reachable_upstream 1) sample_rand)
    = (opening sample_config sample_rand ++ map message_event ms ++ closing)%list /\
    closing_of (snd (run sample_config (reachable_upstream 1) sample_rand)) closing.
Proof.
  split.
  - exact (proj1 (cycle_shape sample_config auth_failed_upstream sample_rand)
                 eq_refl).
  - destruct (proj2 (cycle_shape sample_config (reachable_upstream 1) sample_rand)
                    eq_refl) as (ms & closing & H1 & H2 & _).
    now exists ms, closing.
Defined.

Lemma fetch_needs_text (up : upstream) (url : string) (id token : value) :
  is_text token = false ->
  get_station_realtime up url id token = VNone /\
  get_device_current_data up url id token = VNone.
Proof. destruct token; try discriminate; intros _; split; reflexivity. Qed.

Lemma restruct_present (data : value) (device : string) :
  is_none data = false ->
  is_none (snd (restruct_and_separate_current_data data device)) = false.
Proof.
  destruct data; try discriminate; intros _; try reflexivity.
  now destruct (restruct_frame d device) as [d' [-> _]].
Qed.

(** X10.  A token reply whose [access_token] is not a text, a number
    say, gets past the test for [None]; with such a token every fetch
    returns [None] whatever the upstream would answer, and the cycle
    connects to the bus, starts the loop and stops there: nothing is
    published and the loop is not stopped. *)
Theorem non_text_token_aborts (cfg : config) (up : upstream) (rand : nat -> nat) :
  is_none (token_of cfg up) = false ->
  is_text (token_of cfg up) = false ->
  (forall up' url id,
     get_station_realtime up' url id (token_of cfg up) = VNone /\
     get_device_current_data up' url id (token_of cfg up) = VNone) /\
  run cfg up rand = (opening cfg rand, Ok tt).
Proof.
  intros Hnn Htext.
  assert (Hfetch : forall up' url id,
             get_station_realtime up' url id (token_of cfg up) = VNone /\
             get_device_current_data up' url id (token_of cfg up) = VNone)
    by (intros; now apply fetch_needs_text).
  split; [exact Hfetch|].
  assert (Hs : station_of cfg up = VNone) by apply Hfetch.
  assert (Hi : inverter_of cfg up = VNone) by apply Hfetch.
  assert (Hl : logger_of cfg up = VNone) by apply Hfetch.
  rewrite (run_with_token _ _ _ Hnn), Hs, Hi, Hl.
  now apply run_publish_abort with VNone.
Qed.

Lemma non_text_token_aborts_witness :
  token_of sample_config numeric_token_upstream = VInt 42 /\
  run sample_config numeric_token_upstream sample_rand
  = (opening sample_config sample_rand, Ok tt).
Proof.
  split; [reflexivity|].
  exact (proj2 (non_text_token_aborts sample_config numeric_token_upstream
                  sample_rand eq_refl eq_refl)).
Defined.

Lemma restruct_gives_up (d : dict) (recs : list value) (device : string) :
  dict_get "dataList" d = Some (VList recs) ->
  forallb well_formed_record recs = false ->
  exists recs',
    restruct_and_separate_current_data (VDict d) device
    = (VNone, VDict (dict_set "dataList" (VList recs') d)) /\
    List.length recs' = List.length recs.
Proof.
  intros Hd Hbad.
  unfold restruct_and_separate_current_data, restruct_try, bind, inspect.
  cbn [getitem]. rewrite Hd.
  destruct recs as [|i recs]; [discriminate|]. cbn [truthy iter lift].
  pose proof (for_records_length (i :: recs) []) as Hlen.
  destruct (for_records_fails (i :: recs) [] Hbad) as [e He].
  destruct (for_records [] (i :: recs)) as [recs' r]. cbn [fst snd] in *.
  subst r. exists recs'. now split.
Qed.

Lemma dict_split (k : string) (v : value) (d : dict) :
  dict_get k d = Some v ->
  exists pre post, d = (pre ++ (k, v) :: post)%list /\ dict_get k pre = None.
Proof.
  induction d as [|[a b] d IH]; simpl; [discriminate|].
  destruct (String.eqb_spec k a) as [->|Hne].
  - intros [= ->]. now exists [], d.
  - intros H. destruct (IH H) as (pre & post & -> & Hpre).
    exists ((a, b) :: pre), post. split; [reflexivity|].
    simpl. now destruct (String.eqb_spec k a).
Qed.

Lemma dict_set_split (k : string) (v v' : value) (pre post : dict) :
  dict_get k pre = None ->
  dict_set k v' (pre ++ (k, v) :: post)%list = (pre ++ (k, v') :: post)%list.
Proof.
  induction pre as [|[a b] pre IH]; simpl.
  - now rewrite String.eqb_refl.
  - destruct (String.eqb k a); [discriminate|]. intros H. now rewrite IH.
Qed.

Lemma dict_del_split (k : string) (v : value) (pre post : dict) :
  dict_get k pre = None ->
  dict_del k (pre ++ (k, v) :: post)%list = (pre ++ dict_del k post)%list.
Proof.
  intros H. unfold dict_del. rewrite filter_app. cbn [filter fst].
  rewrite String.eqb_refl. cbn [negb]. f_equal. now apply dict_del_absent.
Qed.

Lemma field_messages_app (prefix : string) (d1 d2 : dict) :
  field_messages prefix (d1 ++ d2)%list
  = (field_messages prefix d1 ++ field_messages prefix d2)%list.
Proof. unfold field_messages. now rewrite filter_app, map_app. Qed.

Lemma handed_over_stop (ms : list (string * payload)) (m : string * payload)
    (rest : list (string * payload)) (e : exn) :
  first_refusal ms = None ->
  refusal (fst m) (snd m) = Some e ->
  handed_over (ms ++ m :: rest) = (ms ++ [m])%list /\
  first_refusal (ms ++ m :: rest) = Some e.
Proof.
  intros Hms Hm. rewrite handed_over_app, first_refusal_app, Hms.
  cbn. rewrite Hm. now rewrite handed_over_all.
Qed.

(** The client never takes a list. *)
Lemma list_refused (tp : string) (l : list value) :
  refusal tp (PValue (VList l)) = Some TypeError \/
  refusal tp (PValue (VList l)) = Some ValueError.
Proof. unfold refusal. destruct (_ || _); auto. Qed.

(** X11.  When the transformer gives up on the inverter's records in a
    cycle that publishes in full, the snapshot still holds its
    [dataList], and the per-field loop hands that list to
    [client.publish] as the payload of [<topic>/inverter/dataList].  The
    client refuses it: if it has accepted the station's fields and the
    inverter's other fields, the cycle ends with that call and its
    exception, before anything of the logger is published and without
    stopping the loop. *)
Theorem damaged_list_is_published (cfg : config) (up : upstream)
    (rand : nat -> nat) (sd ind ld : dict) (st : value) (recs : list value) :
  is_none (token_of cfg up) = false ->
  station_of cfg up = VDict sd ->
  inverter_of cfg up = VDict ind ->
  logger_of cfg up = VDict ld ->
  dict_get "deviceState" ind = Some st ->
  eq_int st 1 = true ->
  dict_get "dataList" ind = Some (VList recs) ->
  forallb well_formed_record recs = false ->
  first_refusal (field_messages (topic (mqtt cfg) ++ "/station/") sd) = None ->
  first_refusal (field_messages (topic (mqtt cfg) ++ "/inverter/")
                                (dict_del "dataList" ind)) = None ->
  exists recs' ms e,
    List.length recs' = List.length recs /\
    (e = TypeError \/ e = ValueError) /\
    run cfg up rand
    = (List.app (opening cfg rand)
         (map message_event
            (List.app ms [((topic (mqtt cfg) ++ "/inverter/") ++ "dataList",
                           PValue (VList recs'))])),
       Raise e).
Proof.
  intros Htok Hs Hi Hl Hst Heq Hd Hbad Hsd Hind.
  rewrite (run_online _ _ _ _ _ _ _ Htok Hs Hi Hl Hst Heq).
  unfold cycle_publication.
  destruct (restruct_gives_up ind recs "Inverter" Hd Hbad) as (recs' & -> & Hlen).
  destruct (dict_split _ _ _ Hd) as (pre & post & -> & Hpre).
  rewrite (dict_set_split _ _ _ _ _ Hpre).
  rewrite (dict_del_split _ _ _ _ Hpre), field_messages_app, first_refusal_app in Hind.
  destruct (first_refusal (field_messages _ pre)) eqn:Hfpre; [discriminate|].
  set (tp := (topic (mqtt cfg) ++ "/inverter/") ++ "dataList").
  assert (He : exists e, refusal tp (PValue (VList recs')) = Some e /\
                         (e = TypeError \/ e = ValueError)).
  { destruct (list_refused tp recs') as [H|H]; eexists; split; eauto. }
  destruct He as (e & Href & He).
  assert (Htruthy : truthy (VList recs') = true).
  { destruct recs'; [|reflexivity].
    destruct recs; [discriminate Hbad|discriminate Hlen]. }
  exists recs', (field_messages (topic (mqtt cfg) ++ "/station/") sd
                 ++ field_messages (topic (mqtt cfg) ++ "/inverter/") pre)%list, e.
  split; [exact Hlen|]. split; [exact He|].
  assert (Efm : field_messages (topic (mqtt cfg) ++ "/inverter/")
                  (("dataList", VList recs') :: post)
                = (tp, PValue (VList recs'))
                  :: field_messages (topic (mqtt cfg) ++ "/inverter/") post).
  { unfold field_messages. cbn [filter]. unfold publishable at 1.
    cbn [fst snd]. now rewrite Htruthy. }
  unfold full_publication. cbn [fst snd snapshot_messages].
  rewrite field_messages_app, Efm.
  set (A := field_messages (topic (mqtt cfg) ++ "/station/") sd) in *.
  set (B := field_messages (topic (mqtt cfg) ++ "/inverter/") pre) in *.
  rewrite <- !app_assoc. cbn [app]. rewrite (app_assoc A B).
  assert (HAB : first_refusal (A ++ B) = None)
    by now rewrite first_refusal_app, Hsd.
  match goal with
  | |- context [handed_over ((A ++ B) ++ ?m :: ?rest)] =>
      destruct (handed_over_stop (A ++ B)%list m rest e HAB Href) as [H1 H2]
  end.
  unfold closing_after, outcome_of. rewrite H1, H2, app_nil_r.
  now rewrite <- app_assoc.
Qed.

Lemma damaged_list_is_published_witness :
  exists recs' ms e,
    List.length recs' = 3 /\
    (e = TypeError \/ e = ValueError) /\
    run sample_config damaged_upstream sample_rand
    = ((opening sample_config sample_rand
        ++ map message_event
             (ms ++ [("solarman/inverter/dataList", PValue (VList recs'))]))%list,
       Raise e).
Proof.
  exact (damaged_list_is_published sample_config damaged_upstream sample_rand
           sample_station damaged_inverter (sample_logger 1) (VInt 1)
           [output_power_record; nameless_record; daily_yield_record]
           eq_refl eq_refl eq_refl eq_refl eq_refl eq_refl eq_refl eq_refl
           eq_refl eq_refl).
Defined.

(** X12.  With the inverter not online and a logger snapshot that has no
    [deviceState], every cycle ends the same way: the inverter's state is
    handed to the client, then an exception leaves [run], and the loop is
    not stopped.  The exception is [KeyError] for the logger's missing
    field, unless the client already refused the inverter's state. *)
Theorem offline_logger_without_state (cfg : config) (up : upstream)
    (rand : nat -> nat) (sd ind ld : dict) (st : value) :
  is_none (token_of cfg up) = false ->
  station_of cfg up = VDict sd ->
  inverter_of cfg up = VDict ind ->
  logger_of cfg up = VDict ld ->
  dict_get "deviceState" ind = Some st ->
  is_none st = false ->
  eq_int st 1 = false ->
  dict_get "deviceState" ld = None ->
  run cfg up rand
  = ((opening cfg rand
      ++ [Publish (topic (mqtt cfg) ++ "/inverter/deviceState") (PValue st)])%list,
     Raise match refusal (topic (mqtt cfg) ++ "/inverter/deviceState") (PValue st) with
           | None => KeyError "deviceState"
           | Some e => e
           end).
Proof.
  intros Htok Hs Hi Hl Hst Hnn Hne Hnone.
  rewrite (run_with_token _ _ _ Htok), Hs, Hi, Hl.
  destruct (restruct_keeps_state ind "Inverter") as [ind' [-> Hst']].
  destruct (restruct_keeps_state ld "Logger") as [ld' [-> Hl']].
  rewrite Hst in Hst'. rewrite Hnone in Hl'.
  unfold run_publish, connect_mqtt, Bus.emit, publish.
  rewrite device_state_of_mapping, Hst'. cbn. rewrite Hnn, Hne, Hst', Hl'.
  now destruct (refusal _ (PValue st)).
Qed.

Lemma offline_logger_without_state_witness :
  run sample_config logger_error_upstream sample_rand
  = ((opening sample_config sample_rand
      ++ [Publish "solarman/inverter/deviceState" (PValue (VInt 3))])%list,
     Raise (KeyError "deviceState")).
Proof.
  exact (offline_logger_without_state sample_config logger_error_upstream
           sample_rand sample_station (sample_inverter 3)
           [("code", VStr "2101019"); ("msg", VStr "device not found");
            ("success", VBool false)] (VInt 3)
           eq_refl eq_refl eq_refl eq_refl eq_refl eq_refl eq_refl eq_refl).
Defined.

(** X13.  An inverter reply that is a bare number or boolean makes the
    test ["deviceState" in inverter_data] raise [TypeError]: [run] ends
    with it right after starting the loop, whatever the other replies
    are. *)
Theorem scalar_inverter_raises (cfg : config) (up : upstream) (rand : nat -> nat) :
  is_none (token_of cfg up) = false ->
  is_scalar (inverter_of cfg up) = true ->
  run cfg up rand = (opening cfg rand, Raise TypeError).
Proof.
  intros Htok Hsc. rewrite (run_with_token _ _ _ Htok), run_publish_split.
  unfold after_loop_start.
  destruct (inverter_of cfg up); try discriminate; reflexivity.
Qed.

Lemma scalar_inverter_raises_witness :
  inverter_of sample_config scalar_inverter_upstream = VInt 0 /\
  run sample_config scalar_inverter_upstream sample_rand
  = (opening sample_config sample_rand, Raise TypeError).
Proof.
  split; [reflexivity|].
  exact (scalar_inverter_raises sample_config scalar_inverter_upstream
           sample_rand eq_refl eq_refl).
Defined.

(** X14.  A station reply that is there but is not a mapping makes
    [station_data.items()] raise [AttributeError] in a cycle whose
    inverter is online: [run] ends with it before anything is
    published. *)
Theorem listed_station_raises (cfg : config) (up : upstream) (rand : nat -> nat)
    (ind : dict) (st : value) :
  is_none (token_of cfg up) = false ->
  is_none (station_of cfg up) = false ->
  is_mapping (station_of cfg up) = false ->
  inverter_of cfg up = VDict ind ->
  is_none (logger_of cfg up) = false ->
  dict_get "deviceState" ind = Some st ->
  eq_int st 1 = true ->
  run cfg up rand = (opening cfg rand, Raise AttributeError).
Proof.
  intros Htok Hsn Hsm Hi Hl Hst Heq.
  rewrite (run_with_token _ _ _ Htok), run_publish_split, Hi.
  destruct (restruct_keeps_state ind "Inverter") as [ind' [-> Hst']].
  rewrite Hst in Hst'. unfold after_loop_start.
  rewrite device_state_of_mapping, Hst', bind_lift_ok.
  rewrite (eq_int_not_none _ _ Heq), Hsn, (restruct_present _ "Logger" Hl).
  unfold publish_branch. rewrite Heq.
  destruct (station_of cfg up); try discriminate; reflexivity.
Qed.

Lemma listed_station_raises_witness :
  run sample_config listed_station_upstream sample_rand
  = (opening sample_config sample_rand, Raise AttributeError).
Proof.
  exact (listed_station_raises sample_config listed_station_upstream sample_rand
           (sample_inverter 1) (VInt 1)
           eq_refl eq_refl eq_refl eq_refl eq_refl eq_refl eq_refl).
Defined.

(* ------------------------------------------------------------------ *)
(** ** The repeating process                                           *)
(* ------------------------------------------------------------------ *)

Lemma pauses_app (t1 t2 : list proc_event) :
  pauses (t1 ++ t2)%list = (pauses t1 ++ pauses t2)%list.
Proof. unfold pauses. apply flat_map_app. Qed.

Lemma pauses_bus (t : trace) : pauses (map PBus t) = [].
Proof. induction t as [|e t IH]; [reflexivity|exact IH]. Qed.

Lemma run_cycle_bus (cfg : config) (w : world) (i : nat) :
  fst (run_cycle cfg w i) = map PBus (fst (run cfg (fst (w i)) (snd (w i)))).
Proof. unfold run_cycle. now destruct (run cfg (fst (w i)) (snd (w i))). Qed.

Lemma pauses_cycles (cfg : config) (interval : value) (w : world) (n : nat) :
  forall i, pauses (cycles_from cfg interval w i n) = repeat interval n.
Proof.
  induction n as [|n IH]; intros i; [reflexivity|].
  cbn [cycles_from repeat]. rewrite pauses_app, run_cycle_bus, pauses_bus.
  cbn. now rewrite IH.
Qed.

Lemma repeat_loop_running (cfg : config) (interval : value) (w : world) (n : nat) :
  time_sleep interval = None ->
  forall i,
    (forall j, i <= j < i + n -> snd (run_cycle cfg w j) = Ok tt) ->
    repeat_loop cfg interval w i n = (cycles_from cfg interval w i n, Running).
Proof.
  intros Hsleep. induction n as [|n IH]; intros i Hok; [reflexivity|].
  cbn [repeat_loop cycles_from]. rewrite Hsleep.
  pose proof (Hok i ltac:(lia)) as Hi.
  destruct (run_cycle cfg w i) as [t r]. cbn [fst snd] in *. subst r.
  rewrite IH; [reflexivity|]. intros j Hj. apply Hok. lia.
Qed.

Lemma repeat_loop_raises (cfg : config) (interval : value) (w : world)
    (e : exn) (k : nat) :
  time_sleep interval = None ->
  forall i fuel,
    (forall j, i <= j < i + k -> snd (run_cycle cfg w j) = Ok tt) ->
    snd (run_cycle cfg w (i + k)) = Raise e ->
    k < fuel ->
    repeat_loop cfg interval w i fuel
    = ((cycles_from cfg interval w i k ++ fst (run_cycle cfg w (i + k)))%list,
       Uncaught e).
Proof.
  intros Hsleep.
  induction k as [|k IH]; intros i fuel Hok Hraise Hfuel;
    (destruct fuel as [|fuel]; [lia|]); cbn [repeat_loop cycles_from].
  - rewrite Nat.add_0_r in *.
    destruct (run_cycle cfg w i) as [t r]. cbn [fst snd] in *. now subst r.
  - pose proof (Hok i ltac:(lia)) as Hi. rewrite Hsleep.
    replace (i + S k) with (S i + k) in * by lia.
    rewrite (IH (S i) fuel); [| |exact Hraise|lia].
    + destruct (run_cycle cfg w i) as [t r]. cbn [fst snd] in *. subst r.
      now rewrite <- app_assoc.
    + intros j Hj. apply Hok. lia.
Qed.

Lemma repeat_loop_outcome (cfg : config) (interval : value) (w : world)
    (fuel : nat) :
  forall i,
    snd (repeat_loop cfg interval w i fuel) = Running \/
    (exists k e, i <= k < i + fuel /\
                 snd (run_cycle cfg w k) = Raise e /\
                 snd (repeat_loop cfg interval w i fuel) = Uncaught e) \/
    (exists e, time_sleep interval = Some e /\
               snd (repeat_loop cfg interval w i fuel) = Uncaught e).
Proof.
  induction fuel as [|fuel IH]; intros i; [now left|].
  cbn [repeat_loop].
  destruct (run_cycle cfg w i) as [t [[]|e]] eqn:Hi.
  - destruct (time_sleep interval) as [e|] eqn:Hsleep.
    + right. right. now exists e.
    + destruct (IH (S i)) as [H|[(k & e & Hk & Hr & H)|(e & He & _)]];
        [| |discriminate];
        destruct (repeat_loop cfg interval w (S i) fuel) as [t' o];
        cbn [snd] in *.
      * now left.
      * right. left. exists k, e. repeat split; try assumption; lia.
  - right. left. exists i, e. rewrite Hi. repeat split; try reflexivity; lia.
Qed.

(** X15.  Started with [--repeat] and an interval that [time.sleep]
    accepts, the process runs cycle after cycle for as long as [run]
    returns: after [n] such cycles it has made the bus calls of each,
    has paused once after each for the configured interval (300 seconds
    when the configuration names none), and is still running. *)
Theorem repeat_keeps_going (cfg : config) (found : option value)
    (prog : string) (more : list string) (w : world) (n : nat) :
  let interval := match found with Some v => v | None => VInt 300 end in
  time_sleep interval = None ->
  (forall j, j < n -> snd (run_cycle cfg w j) = Ok tt) ->
  main (Loaded cfg found) (prog :: "--repeat" :: more) w n
  = (cycles_from cfg interval w 0 n, Running) /\
  pauses (fst (main (Loaded cfg found) (prog :: "--repeat" :: more) w n))
  = repeat interval n.
Proof.
  intros interval Hsleep Hok. cbn [main String.eqb Ascii.eqb Bool.eqb].
  fold interval. rewrite (repeat_loop_running cfg interval w n Hsleep).
  - split; [reflexivity|apply pauses_cycles].
  - intros j Hj. apply Hok. lia.
Qed.

Lemma repeat_keeps_going_witness :
  pauses (fst (main (Loaded sample_config None) ["solarman.py"; "--repeat"]
                    steady_world 3))
  = [VInt 300; VInt 300; VInt 300] /\
  snd (main (Loaded sample_config None) ["solarman.py"; "--repeat"]
            steady_world 3) = Running.
Proof.
  assert (Hok : forall j, j < 3 -> snd (run_cycle sample_config steady_world j) = Ok tt)
    by (intros j _; reflexivity).
  destruct (repeat_keeps_going sample_config None "solarman.py" [] steady_world 3
              eq_refl Hok) as [Hmain Hp].
  split; [exact Hp|now rewrite Hmain].
Defined.

(** X16.  Nothing around [run] catches an exception: when cycle [k] of
    a repeating process raises, after [k] cycles that returned and were
    each followed by a pause that [time.sleep] accepted, the process
    ends there with that exception, and no later cycle is run however
    long one waits. *)
Theorem repeat_stops_at_exception (cfg : config) (found : option value)
    (prog : string) (more : list string) (w : world) (e : exn) (k fuel : nat) :
  let interval := match found with Some v => v | None => VInt 300 end in
  time_sleep interval = None ->
  (forall j, j < k -> snd (run_cycle cfg w j) = Ok tt) ->
  snd (run_cycle cfg w k) = Raise e ->
  k < fuel ->
  main (Loaded cfg found) (prog :: "--repeat" :: more) w fuel
  = ((cycles_from cfg interval w 0 k ++ fst (run_cycle cfg w k))%list,
     Uncaught e).
Proof.
  intros interval Hsleep Hok Hraise Hfuel.
  cbn [main String.eqb Ascii.eqb Bool.eqb]. fold interval.
  apply (repeat_loop_raises cfg interval w e k Hsleep 0 fuel); try assumption.
  intros j Hj. apply Hok. lia.
Qed.

Lemma repeat_stops_at_exception_witness :
  snd (main (Loaded sample_config (Some (VInt 60))) ["solarman.py"; "--repeat"]
            faulty_world 10)
  = Uncaught (KeyError "deviceState") /\
  pauses (fst (main (Loaded sample_config (Some (VInt 60)))
                    ["solarman.py"; "--repeat"] faulty_world 10))
  = [VInt 60; VInt 60].
Proof.
  assert (Hok : forall j, j < 2 -> snd (run_cycle sample_config faulty_world j) = Ok tt).
  { intros j Hj. destruct j as [|[|j]]; [reflexivity|reflexivity|lia]. }
  rewrite (repeat_stops_at_exception sample_config (Some (VInt 60)) "solarman.py"
             [] faulty_world (KeyError "deviceState") 2 10 eq_refl Hok eq_refl
             ltac:(lia)).
  split; reflexivity.
Defined.

(** X17.  A repeating process never exits by itself: however many
    iterations one observes, it is still running, or has ended with an
    exception that one of the cycles run so far raised, or has ended
    with the exception of [time.sleep] on the interval.  The last is
    what happens to an interval that [time.sleep] does not accept (a
    text, [null], a negative number): the process ends at the first
    pause, after one cycle. *)
Theorem repeat_never_exits (cfg : config) (found : option value)
    (prog : string) (more : list string) (w : world) (fuel : nat) :
  let interval := match found with Some v => v | None => VInt 300 end in
  let ended := main (Loaded cfg found) (prog :: "--repeat" :: more) w fuel in
  (snd ended = Running \/
   (exists k e, k < fuel /\ snd (run_cycle cfg w k) = Raise e /\
                snd ended = Uncaught e) \/
   (exists e, time_sleep interval = Some e /\ snd ended = Uncaught e)) /\
  (forall e,
     time_sleep interval = Some e ->
     snd (run_cycle cfg w 0) = Ok tt ->
     0 < fuel ->
     ended = ((fst (run_cycle cfg w 0) ++ [PSleep interval])%list, Uncaught e)).
Proof.
  intros interval ended. subst ended.
  cbn [main String.eqb Ascii.eqb Bool.eqb]. fold interval. split.
  - destruct (repeat_loop_outcome cfg interval w fuel 0)
      as [H|[(k & e & Hk & Hr & H)|H]]; [now left| |now right; right].
    right. left. exists k, e. repeat split; try assumption; lia.
  - intros e Hsleep Hok Hfuel. destruct fuel as [|fuel]; [lia|].
    cbn [repeat_loop]. rewrite Hsleep.
    destruct (run_cycle cfg w 0) as [t r]. cbn [fst snd] in *. now subst r.
Qed.

Lemma repeat_never_exits_witness :
  time_sleep (VStr "300") = Some TypeError /\
  snd (main (Loaded sample_config (Some (VStr "300")))
            ["solarman.py"; "--repeat"] steady_world 5)
  = Uncaught TypeError /\
  pauses (fst (main (Loaded sample_config (Some (VStr "300")))
                    ["solarman.py"; "--repeat"] steady_world 5))
  = [VStr "300"].
Proof.
  split; [reflexivity|].
  rewrite (proj2 (repeat_never_exits sample_config (Some (VStr "300"))
                    "solarman.py" [] steady_world 5)
                 TypeError eq_refl eq_refl ltac:(lia)).
  split; reflexivity.
Defined.

(* ------------------------------------------------------------------ *)
(** ** Topics                                                          *)
(* ------------------------------------------------------------------ *)

Lemma dict_keys_filter_nodup (f : string * value -> bool) (d : dict) :
  NoDup (dict_keys d) -> NoDup (dict_keys (filter f d)).
Proof.
  unfold dict_keys. induction d as [|[k v] d IH]; simpl; [auto|].
  intros H. inversion H as [|? ? Hnin Hnd]; subst.
  destruct (f (k, v)); simpl; [|now apply IH].
  constructor; [|now apply IH].
  intros Hin. apply Hnin. apply in_map_iff in Hin as [kv [Hk Hin]].
  apply filter_In in Hin as [Hin _]. apply in_map_iff. now exists kv.
Qed.

Lemma restruct_keeps_nodup (d : dict) (device : string) :
  NoDup (dict_keys d) ->
  exists d',
    snd (restruct_and_separate_current_data (VDict d) device) = VDict d' /\
    NoDup (dict_keys d').
Proof.
  intros Hnd.
  unfold restruct_and_separate_current_data, restruct_try, bind, inspect.
  cbn [getitem].
  destruct (dict_get "dataList" d) as [data_list|] eqn:Hd; [|now exists d].
  destruct (truthy data_list); [|now exists d].
  unfold lift. destruct (iter data_list) as [elems|e]; [|now exists d].
  destruct (for_records [] elems) as [elems' [m|e]]; unfold update, ret, store;
    cbn [delitem].
  - unfold dict_has. rewrite dict_get_set_same, dict_del_set.
    exists (dict_del "dataList" d). split; [reflexivity|].
    now apply dict_keys_filter_nodup.
  - eexists. split; [reflexivity|]. now apply dict_keys_set_nodup.
Qed.

Lemma prefixed_nodup (prefix : string) (ks : list string) :
  NoDup ks -> NoDup (map (String.append prefix) ks).
Proof.
  induction 1 as [|k ks Hnin Hnd IH]; simpl; constructor; [|exact IH].
  intros Hin. apply in_map_iff in Hin as [k' [Heq Hin]].
  apply append_inj_l in Heq. now subst k'.
Qed.

Lemma field_topics_app (ms1 ms2 : list (string * payload)) :
  field_topics (ms1 ++ ms2)%list = (field_topics ms1 ++ field_topics ms2)%list.
Proof. unfold field_topics. apply flat_map_app. Qed.

Lemma field_topics_blob (tp : string) (attrs : value) :
  field_topics (blob_messages tp attrs) = [].
Proof. unfold blob_messages. now destruct (truthy attrs). Qed.

Lemma field_topics_fields (prefix : string) (d : dict) :
  field_topics (field_messages prefix d)
  = map (String.append prefix) (dict_keys (filter publishable d)).
Proof.
  unfold field_messages, dict_keys.
  induction (filter publishable d) as [|[k v] l IH]; [reflexivity|].
  cbn. now rewrite <- IH.
Qed.

(** Topics under two different sections never coincide. *)
Lemma sections_apart (t a b : string) (ka kb : list string) (x : string) :
  (forall k k', a ++ k <> b ++ k') ->
  In x (map (String.append (t ++ a)) ka) ->
  ~ In x (map (String.append (t ++ b)) kb).
Proof.
  intros Hab Ha Hb.
  apply in_map_iff in Ha as [k [<- _]]. apply in_map_iff in Hb as [k' [Heq _]].
  rewrite !append_assoc in Heq. apply append_inj_l in Heq.
  now apply (Hab k k').
Qed.

Lemma run_offline_stateless (cfg : config) (up : upstream)
    (rand : nat -> nat) (sd ind ld : dict) (st : value) :
  is_none (token_of cfg up) = false ->
  station_of cfg up = VDict sd ->
  inverter_of cfg up = VDict ind ->
  logger_of cfg up = VDict ld ->
  dict_get "deviceState" ind = Some st ->
  is_none st = false ->
  eq_int st 1 = false ->
  dict_get "deviceState" ld = None ->
  published (fst (run cfg up rand))
  = [(topic (mqtt cfg) ++ "/inverter/deviceState", PValue st)].
Proof.
  intros Htok Hs Hi Hl Hst Hnn Hne Hnone.
  rewrite (run_with_token _ _ _ Htok), Hs, Hi, Hl.
  destruct (restruct_keeps_state ind "Inverter") as [ind' [-> Hst']].
  destruct (restruct_keeps_state ld "Logger") as [ld' [-> Hl']].
  rewrite Hst in Hst'. rewrite Hnone in Hl'.
  unfold run_publish, connect_mqtt, Bus.emit, publish.
  rewrite device_state_of_mapping, Hst'. cbn. rewrite Hnn, Hne, Hst', Hl'.
  now destruct (refusal _ (PValue st)).
Qed.

Lemma field_topics_handed_over (ms : list (string * payload)) :
  NoDup (field_topics ms) -> NoDup (field_topics (handed_over ms)).
Proof.
  intros H. destruct (handed_over_prefix ms) as [rest E].
  rewrite E, field_topics_app in H. now apply NoDup_app_remove_r in H.
Qed.

(** X18.  In a cycle over three mappings with an inverter state, no
    topic receives the value of a field twice: the topics of the
    per-field messages of one cycle are pairwise different, in the full
    publication and in the reduced one. *)
Theorem field_topics_distinct (cfg : config) (up : upstream) (rand : nat -> nat)
    (sd ind ld : dict) (st : value) :
  is_none (token_of cfg up) = false ->
  station_of cfg up = VDict sd ->
  inverter_of cfg up = VDict ind ->
  logger_of cfg up = VDict ld ->
  NoDup (dict_keys sd) -> NoDup (dict_keys ind) -> NoDup (dict_keys ld) ->
  dict_get "deviceState" ind = Some st ->
  is_none st = false ->
  NoDup (field_topics (published (fst (run cfg up rand)))).
Proof.
  intros Htok Hs Hi Hl Nsd Nind Nld Hst Hnn.
  destruct (eq_int st 1) eqn:Heq.
  - rewrite (run_online _ _ _ _ _ _ _ Htok Hs Hi Hl Hst Heq). cbn [fst].
    rewrite published_cycle by apply published_closing.
    apply field_topics_handed_over. unfold cycle_publication.
    destruct (restruct_keeps_nodup ind "Inverter" Nind) as [ind' [-> Nind']].
    destruct (restruct_keeps_nodup ld "Logger" Nld) as [ld' [-> Nld']].
    unfold full_publication, snapshot_messages.
    rewrite !field_topics_app, !field_topics_blob, !field_topics_fields.
    rewrite app_nil_r. cbn [app].
    assert (Ksd := dict_keys_filter_nodup publishable sd Nsd).
    assert (Kind := dict_keys_filter_nodup publishable ind' Nind').
    assert (Kld := dict_keys_filter_nodup publishable ld' Nld').
    apply NoDup_app; [now apply prefixed_nodup| |].
    + apply NoDup_app; [now apply prefixed_nodup|now apply prefixed_nodup|].
      intros x. apply sections_apart. intros k k'. cbn. discriminate.
    + intros x Hx Hin. apply in_app_or in Hin as [Hin|Hin];
        revert Hin; apply (fun H => sections_apart _ _ _ _ _ _ H Hx);
        intros k k'; cbn; discriminate.
  - destruct (dict_get "deviceState" ld) as [lst|] eqn:Hlst.
    + rewrite (run_offline _ _ _ _ _ _ _ _ Htok Hs Hi Hl Hst Hnn Heq Hlst).
      cbn [fst]. rewrite published_cycle by apply published_closing.
      apply field_topics_handed_over. cbn.
      constructor; [|constructor; [intros []|constructor]].
      intros [H|[]]. apply append_inj_l in H. discriminate.
    + rewrite (run_offline_stateless _ _ _ _ _ _ _ Htok Hs Hi Hl Hst Hnn Heq Hlst).
      cbn. constructor; [intros []|constructor].
Qed.

Lemma field_topics_distinct_witness :
  NoDup (field_topics
           (published (fst (run sample_config (reachable_upstream 1) sample_rand)))).
Proof.
  apply (field_topics_distinct sample_config (reachable_upstream 1) sample_rand
           sample_station (sample_inverter 1) (sample_logger 1) (VInt 1)
           eq_refl eq_refl eq_refl eq_refl);
    try reflexivity; repeat constructor; cbn; intuition discriminate.
Defined.

(* ------------------------------------------------------------------ *)
(** ** Missing attributes                                              *)
(* ------------------------------------------------------------------ *)

(** X19.  On a snapshot whose [dataList] is missing or falsy the
    transformer returns [None] or an empty mapping and leaves the
    snapshot as it is.  In a cycle that publishes in full and in which
    the client accepts every message, the device concerned then has no
    attributes message, and the station fields and the fields of both
    devices are published all the same. *)
Theorem missing_attributes_degrade (cfg : config) (up : upstream)
    (rand : nat -> nat) (sd ind ld : dict) (st : value) :
  is_none (token_of cfg up) = false ->
  station_of cfg up = VDict sd ->
  inverter_of cfg up = VDict ind ->
  logger_of cfg up = VDict ld ->
  dict_get "deviceState" ind = Some st ->
  eq_int st 1 = true ->
  first_refusal (cycle_publication cfg sd ind ld) = None ->
  let tp := topic (mqtt cfg) in
  (forall d device,
     no_attributes d = true ->
     restruct_and_separate_current_data (VDict d) device
     = (if dict_has "dataList" d then VDict [] else VNone, VDict d)) /\
  (no_attributes ind = true ->
   snd (run cfg up rand) = Ok tt /\
   published (fst (run cfg up rand))
   = (field_messages (tp ++ "/station/") sd
      ++ field_messages (tp ++ "/inverter/") ind
      ++ snapshot_messages (tp ++ "/logger/")
           (snd (restruct_and_separate_current_data (VDict ld) "Logger"))
      ++ blob_messages (tp ++ "/logger/attributes")
           (fst (restruct_and_separate_current_data (VDict ld) "Logger")))%list) /\
  (no_attributes ld = true ->
   snd (run cfg up rand) = Ok tt /\
   published (fst (run cfg up rand))
   = (field_messages (tp ++ "/station/") sd
      ++ snapshot_messages (tp ++ "/inverter/")
           (snd (restruct_and_separate_current_data (VDict ind) "Inverter"))
      ++ blob_messages (tp ++ "/inverter/attributes")
           (fst (restruct_and_separate_current_data (VDict ind) "Inverter"))
      ++ field_messages (tp ++ "/logger/") ld)%list).
Proof.
  intros Htok Hs Hi Hl Hst Heq Hacc tp.
  split; [exact restruct_no_attributes|].
  rewrite (run_online _ _ _ _ _ _ _ Htok Hs Hi Hl Hst Heq). cbn [fst snd].
  rewrite published_cycle by apply published_closing.
  unfold outcome_of. rewrite Hacc, (handed_over_all _ Hacc).
  unfold cycle_publication, full_publication. fold tp.
  split; intros Hno; (split; [reflexivity|]);
    rewrite (restruct_no_attributes _ _ Hno); cbn [fst snd snapshot_messages];
    rewrite blob_messages_none; [reflexivity|now rewrite app_nil_r].
Qed.

Lemma missing_attributes_degrade_witness :
  restruct_and_separate_current_data (VDict bare_inverter) "Inverter"
  = (VDict [], VDict bare_inverter) /\
  restruct_and_separate_current_data (VDict (sample_logger 1)) "Logger"
  = (VNone, VDict (sample_logger 1)) /\
  published (fst (run sample_config bare_upstream sample_rand))
  = [("solarman/station/energy", PValue (VFloat f12_5));
     ("solarman/inverter/deviceSn", PValue (VStr "INV1"));
     ("solarman/inverter/deviceState", PValue (VInt 1));
     ("solarman/logger/deviceSn", PValue (VStr "LOG1"));
     ("solarman/logger/deviceState", PValue (VInt 1))].
Proof.
  destruct (missing_attributes_degrade sample_config bare_upstream sample_rand
              sample_station bare_inverter (sample_logger 1) (VInt 1)
              eq_refl eq_refl eq_refl eq_refl eq_refl eq_refl eq_refl)
    as [Hflat [Hinv Hlog]].
  split; [exact (Hflat bare_inverter "Inverter" eq_refl)|].
  split; [exact (Hflat (sample_logger 1) "Logger" eq_refl)|].
  exact (eq_trans (proj2 (Hinv eq_refl)) eq_refl).
Defined.
